(** * Trade Insights Bot: the data pipeline of [trading bot/trading_bot.py]

    Shallow embedding of the market-data gateway ([get_stock_info]), the
    news collector ([search_news]), the portfolio analytics engine
    ([get_portfolio_analytics]) and the two endpoints that use them
    ([trade_insights], [portfolio_analytics]).

    Modelling choices:
    - Python floats are idealised as exact rationals [Q]; the constants
      [0.05] and [0.1] become [1#20] and [1#10].  Rounding is not modelled,
      so no property proved here rests on an algebraic law (scaling,
      reordering a sum) that floats break.  The [ta] indicators, which
      return NaN on degenerate input, carry [PyFloat] values with a NaN
      case, since NaN changes what the endpoints send back.
    - Every collaborator that leaves the process (yfinance, DuckDuckGo, the
      Together completion API) and every library computation that may raise
      (the [ta] indicators, pydantic validation) is a field of the record
      [Env]; a raised exception is an [Err] of the [Result] type.
    - Sequential Python code runs in a writer/exception monad [M]: the log is
      the list of upstream calls issued, in program order; an [Err] stops
      the computation like an uncaught exception. *)

From Stdlib Require Import QArith Qminmax ZArith List String Lia.
From stdpp Require Import base gmap strings.
Import ListNotations.

Open Scope Q_scope.

(* ------------------------------------------------------------------ *)
(** ** Exceptions and the effect monad *)

Inductive exn :=
| KeyError
| IndexError
| ZeroDivisionError
| ValidationError
| TypeError
| ValueError
| UpstreamError (msg : string).

Inductive Result (A : Type) :=
| Ok (a : A)
| Err (e : exn).
Arguments Ok {A} a.
Arguments Err {A} e.

(** Python's [str(e)], as used in [f"Error: {e}"]. *)
Definition exn_message (e : exn) : string :=
  match e with
  | KeyError => "KeyError"
  | IndexError => "IndexError"
  | ZeroDivisionError => "division by zero"
  | ValidationError => "validation error"
  | TypeError => "TypeError"
  | ValueError => "Out of range float values are not JSON compliant"
  | UpstreamError m => m
  end.

(** A float computed by pandas or [ta]: a number, or NaN (e.g. a 0/0
    such as the money flow index of bars that all have zero volume). *)
Inductive PyFloat :=
| FNum (q : Q)
| FNaN.

(** Python truthiness of an [Optional[float]]: [None] and [0.0] are false. *)
Definition truthy (o : option Q) : bool :=
  match o with
  | Some x => negb (Qeq_bool x 0)
  | None => false
  end.

(** [a / b] on Python floats: raises [ZeroDivisionError] on a zero divisor. *)
Definition py_div (a b : Q) : Result Q :=
  if Qeq_bool b 0 then Err ZeroDivisionError else Ok (a / b).

(** Python's [sum] over a list of floats (left to right, from [0]). *)
Definition py_sum (l : list Q) : Q := fold_left Qplus l 0.

(** Python's [min] over a non-empty list: the first minimal element. *)
Definition py_min (x : Q) (l : list Q) : Q :=
  fold_left (fun m y => if Qlt_le_dec y m then y else m) l x.

(** Python's [len], as a float operand. *)
Definition py_len {A} (l : list A) : Q := inject_Z (Z.of_nat (length l)).

(** Pandas' [Series.mean()] on a non-empty series. *)
Definition series_mean (l : list Q) : Q := py_sum l / py_len l.

(* ------------------------------------------------------------------ *)
(** ** Data model (the pydantic models of the source) *)

(** [class StockInfo(BaseModel)]: every field defaults to [None]. *)
Record StockInfo := mkStockInfo {
  name : option string;
  symbol : option string;
  price : option Q;
  previous_close : option Q;
  currency : option string;
  price_week_ago : option Q;
  price_month_ago : option Q;
  volume : option Q;
  avg_volume : option Q;
  volatility : option Q;
  rsi : option PyFloat;
  macd : option PyFloat;
  boll_upper : option PyFloat;
  boll_lower : option PyFloat;
  mfi : option PyFloat;
  obv : option PyFloat;
  atr : option PyFloat;
  alert : option string
}.

(** [StockInfo(symbol=symbol)], the value of the [except] branch. *)
Definition symbol_only (s : string) : StockInfo :=
  mkStockInfo None (Some s) None None None None None None None None
              None None None None None None None None.

(** One row of the yfinance history frame (the columns the code reads). *)
Record Bar := mkBar { High : Q; Low : Q; Close : Q; Volume : Q }.

(** The keys of [ticker.info] the code reads with [info.get]. *)
Record Info := mkInfo {
  shortName : option string;
  regularMarketPrice : option Q;
  regularMarketPreviousClose : option Q;
  info_currency : option string
}.

(** A raw DuckDuckGo news result: a dict indexed with [r["title"]] etc. *)
Record RawNews := mkRawNews {
  r_title : option string;
  r_url : option string;
  r_body : option string
}.

(** [class NewsItem(BaseModel)]; dates are day numbers. *)
Record NewsItem := mkNewsItem {
  title : string;
  link : string;
  snippet : string;
  date : option Z;
  sentiment : option string
}.

(** An entry of [get_economic_calendar()]. *)
Record CalEvent := mkCalEvent { event : string; cal_date : Z; impact : string }.

(** The two chat messages sent to the completion API: the fixed system
    prompt and the contents of the user prompt's f-string. *)
Record Messages := mkMessages {
  msg_system : string;
  msg_query : string;
  msg_tickers : list string;
  msg_stats : gmap string StockInfo;
  msg_news : list NewsItem;
  msg_calendar : list CalEvent
}.

(** Upstream calls that leave the process. *)
Inductive Call :=
| HistoryCall (s : string)           (* yf.Ticker(s).history(period="1mo") *)
| InfoCall (s : string)              (* yf.Ticker(s).info *)
| NewsCall (q : string) (n : Z)      (* DDGS().news(q, max_results=n) *)
| SynthCall (msgs : Messages).       (* ask_together(messages, client) *)

(** The collaborators: network services, library computations that may
    raise, the clock, and the latency of each upstream call. *)
Record Env := mkEnv {
  yf_history : string -> Result (list Bar);
  yf_info : string -> Result Info;
  ta_rsi : list Q -> Result PyFloat;      (* RSIIndicator(close, 14).rsi().iloc[-1] *)
  ta_macd : list Q -> Result PyFloat;     (* MACD(close).macd().iloc[-1] *)
  ta_bollinger : list Q -> Result unit;   (* BollingerBands(close, 20) *)
  ta_boll_hband : list Q -> Result PyFloat; (* bb.bollinger_hband().iloc[-1] *)
  ta_boll_lband : list Q -> Result PyFloat; (* bb.bollinger_lband().iloc[-1] *)
  ta_mfi : list Bar -> Result PyFloat;    (* MFIIndicator(..., 14) *)
  ta_obv : list Bar -> Result PyFloat;    (* OnBalanceVolumeIndicator *)
  ta_atr : list Bar -> Result PyFloat;    (* AverageTrueRange(..., 14) *)
  ta_volatility : list Q -> Result Q;     (* close.pct_change().std() * 252 ** 0.5,
                                             taken to be a number: its NaN on a
                                             two-bar history is not modelled *)
  stockinfo_valid : StockInfo -> bool;    (* pydantic validation of StockInfo(...) *)
  ddgs_news : string -> Z -> Result (list RawNews);
  together : Messages -> Result string;   (* the completion API behind ask_together *)
  now_day : Z;                            (* datetime.now() *)
  latency : Call -> Q                     (* wall-clock time of one upstream call *)
}.

(* ------------------------------------------------------------------ *)
(** ** The effect monad: upstream-call log and exceptions *)

Definition M (A : Type) : Type := list Call * Result A.

Definition ret {A} (a : A) : M A := ([], Ok a).

Definition raise {A} (e : exn) : M A := ([], Err e).

Definition bindM {A B} (m : M A) (f : A -> M B) : M B :=
  match m with
  | (l1, Ok a) => let (l2, r) := f a in (l1 ++ l2, r)
  | (l1, Err e) => (l1, Err e)
  end.

Notation "'let!' x := m 'in' k" := (bindM m (fun x => k))
  (at level 200, x name, m at level 100, k at level 200).

(** A computation that does not leave the process but may raise. *)
Definition lift {A} (r : Result A) : M A := ([], r).

(** An upstream call: logged, then its answer (or exception). *)
Definition call {A} (c : Call) (r : Result A) : M A := ([c], r).

(** [try: body except Exception: handler(e)]. *)
Definition try_except {A} (m : M A) (handler : exn -> A) : M A :=
  match m with
  | (l, Ok a) => (l, Ok a)
  | (l, Err e) => (l, Ok (handler e))
  end.

(** [try: body except Exception as e: handler(e)] where the handler itself
    may raise; its exception propagates. *)
Definition try_catch {A} (m : M A) (handler : exn -> M A) : M A :=
  match m with
  | (l, Ok a) => (l, Ok a)
  | (l, Err e) => let (l2, r) := handler e in (l ++ l2, r)
  end.

Definition trace {A} (m : M A) : list Call := fst m.
Definition outcome {A} (m : M A) : Result A := snd m.

(** Elapsed wall-clock time of sequential code: the latencies of the
    upstream calls it issued, one after the other. *)
Definition elapsed (E : Env) (l : list Call) : Q := py_sum (map (latency E) l).

(** Python's [a > b] on floats. *)
Definition py_gt (a b : Q) : bool := negb (Qle_bool a b).

(* ------------------------------------------------------------------ *)
(** ** [get_stock_info]: the market-data gateway *)

(** [f(...) if cond else None] where [f(...)] may raise. *)
Definition opt_when {A} (cond : bool) (r : Result A) : M (option A) :=
  if cond then (let! v := lift r in ret (Some v)) else ret None.

(** [if volatility and (volatility > 0.05): alert = ...]. *)
Definition alert_of (vol : option Q) : option string :=
  match vol with
  | Some v =>
      if truthy vol && py_gt v (1#20)
      then Some "⚠️ Unusual volatility detected!" else None
  | None => None
  end.

(** The [try] block of [get_stock_info]. *)
Definition stock_info_body (E : Env) (sym : string) : M StockInfo :=
  let! hist := call (HistoryCall sym) (yf_history E sym) in
  let! info := call (InfoCall sym) (yf_info E sym) in
  let close := map Close hist in
  let volume := map Volume hist in
  let n := length close in
  let! rsi := opt_when (14 <=? n)%nat (ta_rsi E close) in
  let! macd := opt_when (26 <=? n)%nat (ta_macd E close) in
  let! _bb := lift (ta_bollinger E close) in
  let! boll_upper := opt_when (20 <=? n)%nat (ta_boll_hband E close) in
  let! boll_lower := opt_when (20 <=? n)%nat (ta_boll_lband E close) in
  let! mfi := opt_when (14 <=? n)%nat (ta_mfi E hist) in
  let! obv := opt_when (2 <=? n)%nat (ta_obv E hist) in
  let! atr := opt_when (14 <=? n)%nat (ta_atr E hist) in
  let! volatility := opt_when (1 <? n)%nat (ta_volatility E close) in
  let alert := alert_of volatility in
  let si := mkStockInfo
    (shortName info) (Some sym) (regularMarketPrice info)
    (regularMarketPreviousClose info) (info_currency info)
    (if (5 <? n)%nat then nth_error close (n - 6) else None)   (* close[-6] *)
    (if (0 <? n)%nat then nth_error close 0 else None)         (* close[0] *)
    (if (0 <? length volume)%nat
     then nth_error volume (length volume - 1) else None)      (* volume.iloc[-1] *)
    (if (0 <? length volume)%nat then Some (series_mean volume) else None)
    volatility rsi macd boll_upper boll_lower mfi obv atr alert in
  if stockinfo_valid E si then ret si else raise ValidationError.

(** [get_stock_info(symbol)]: any exception yields [StockInfo(symbol=symbol)]. *)
Definition get_stock_info (E : Env) (sym : string) : M StockInfo :=
  try_except (stock_info_body E sym) (fun _ => symbol_only sym).

(* ------------------------------------------------------------------ *)
(** ** [search_news] and [get_economic_calendar] *)

Definition sentiments : list string := ["positive"; "negative"; "neutral"].

(** One [NewsItem(...)] of the list comprehension, for [(i, r)] of
    [enumerate(results)]; a missing key raises [KeyError]. *)
Definition news_item (E : Env) (i : nat) (r : RawNews) : Result NewsItem :=
  match r_title r, r_url r, r_body r with
  | Some t, Some u, Some b =>
      Ok (mkNewsItem t u b (Some (now_day E)) (nth_error sentiments (i mod 3)))
  | _, _, _ => Err KeyError
  end.

Fixpoint news_items (E : Env) (i : nat) (rs : list RawNews) : Result (list NewsItem) :=
  match rs with
  | [] => Ok []
  | r :: rest =>
      match news_item E i r with
      | Ok it =>
          match news_items E (S i) rest with
          | Ok its => Ok (it :: its)
          | Err e => Err e
          end
      | Err e => Err e
      end
  end.

(** [search_news(query, max_results)]: any exception yields [[]]. *)
Definition search_news (E : Env) (query : string) (max_results : Z) : M (list NewsItem) :=
  try_except
    (let! results := call (NewsCall query max_results) (ddgs_news E query max_results) in
     lift (news_items E 0 results))
    (fun _ => []).

Definition get_economic_calendar (E : Env) : list CalEvent :=
  [ mkCalEvent "Fed Interest Rate Decision" (now_day E + 2)%Z "high";
    mkCalEvent "US Jobs Report" (now_day E + 5)%Z "medium";
    mkCalEvent "CPI Inflation Release" (now_day E + 10)%Z "high" ].

(* ------------------------------------------------------------------ *)
(** ** [get_portfolio_analytics]: the portfolio analytics engine *)

(** [class PortfolioAnalytics(BaseModel)]. *)
Record PortfolioAnalytics := mkPortfolioAnalytics {
  total_value : Q;
  returns : Q;
  pa_volatility : Q;        (* the field [volatility] *)
  sharpe : Q;
  drawdown : Q;
  risk_level : string
}.

(** The loop variables [total_value], [returns], [vols], [prices]. *)
Record Acc := mkAcc {
  acc_total : Q;
  acc_returns : list Q;
  acc_vols : list Q;
  acc_prices : list Q
}.

Definition acc_init : Acc := mkAcc 0 [] [] [].

(** [info.volatility or 0]. *)
Definition vol_or_0 (o : option Q) : Q :=
  match o with
  | Some v => if truthy o then v else 0
  | None => 0
  end.

(** The body of the [for] loop, once [info = get_stock_info(symbol)]. *)
Definition pa_update (acc : Acc) (qty : Q) (info : StockInfo) : Result Acc :=
  if truthy (price info) && truthy (price_month_ago info) then
    match price info, price_month_ago info with
    | Some p, Some pm =>
        match py_div (p - pm) pm with
        | Ok r =>
            Ok (mkAcc (acc_total acc + p * qty)
                      (acc_returns acc ++ [r])
                      (acc_vols acc ++ [vol_or_0 (volatility info)])
                      (acc_prices acc ++ [p]))
        | Err e => Err e
        end
    | _, _ => Err TypeError      (* None * qty; excluded by the guard *)
    end
  else Ok acc.

(** [for symbol, qty in holdings.items(): ...]. *)
Fixpoint pa_loop (E : Env) (holdings : list (string * Q)) (acc : Acc) : M Acc :=
  match holdings with
  | [] => ret acc
  | (sym, qty) :: rest =>
      let! info := get_stock_info E sym in
      let! acc' := lift (pa_update acc qty info) in
      pa_loop E rest acc'
  end.

(** [risk_level = "Low"; if avg_vol > 0.05: ...; if avg_vol > 0.1: ...]. *)
Definition risk_of (avg_vol : Q) : string :=
  let r := "Low" in
  let r := if py_gt avg_vol (1#20) then "Medium" else r in
  let r := if py_gt avg_vol (1#10) then "High" else r in
  r.

(** [sum(l) / len(l) if l else 0]. *)
Definition mean_or_0 (l : list Q) : M Q :=
  match l with
  | [] => ret 0
  | _ => lift (py_div (py_sum l) (py_len l))
  end.

Definition get_portfolio_analytics (E : Env) (holdings : list (string * Q))
  : M PortfolioAnalytics :=
  let! acc := pa_loop E holdings acc_init in
  let! avg_return := mean_or_0 (acc_returns acc) in
  let! avg_vol := mean_or_0 (acc_vols acc) in
  let! sharpe := (if truthy (Some avg_vol) then lift (py_div avg_return avg_vol)
                  else ret 0) in
  let drawdown := match acc_returns acc with
                  | [] => 0
                  | r :: rs => py_min r rs
                  end in
  ret (mkPortfolioAnalytics (acc_total acc) avg_return avg_vol sharpe drawdown
                            (risk_of avg_vol)).

(* ------------------------------------------------------------------ *)
(** ** The endpoints [/trade-insights] and [/portfolio-analytics] *)

(** The parsed JSON body: [data.get(key, default)] reads these. *)
Record Request := mkRequest {
  req_query : option string;
  req_tickers : option (list string);
  req_holdings : option (list (string * Q))
}.

(** [TradeInsightsResponse(result, stats)] or the
    [JSONResponse(status_code=500, content={"result": ..., "stats": ...})]. *)
Inductive InsightsResponse :=
| InsightsOk (result : string) (stats : gmap string StockInfo)
| InsightsError (status_code : Z) (result : string) (stats : gmap string StockInfo).

Definition system_prompt : string :=
  "You are a multi-agent AI trading assistant. Given the following data, do the following:
- Summarize technical and statistical indicators for each asset
- Summarize news sentiment and key drivers
- Give actionable recommendations (buy/sell/hold) and risk assessment
- Highlight alerts (volatility, volume, macro events)
- No code, only insights and analytics.".

(** [{symbol: get_stock_info(symbol).dict() for symbol in tickers}]. *)
Fixpoint stats_comprehension (E : Env) (tickers : list string)
    (st : gmap string StockInfo) : M (gmap string StockInfo) :=
  match tickers with
  | [] => ret st
  | s :: rest =>
      let! si := get_stock_info E s in
      stats_comprehension E rest (<[s := si]> st)
  end.

(** The data-gathering part of [trade_insights], up to [messages]. *)
Definition insights_gather (E : Env) (req : Request) : M Messages :=
  let query := default "Analyze my watchlist and provide actionable insights."
                       (req_query req) in
  let tickers := default ["BTC-USD"; "^IXIC"] (req_tickers req) in
  let! stats := stats_comprehension E tickers ∅ in
  let! news := search_news E (String.concat " " tickers) 5 in
  let econ_calendar := get_economic_calendar E in
  ret (mkMessages system_prompt query tickers stats news econ_calendar).

(** A float field of [StockInfo.dict()] that [json.dumps(..., allow_nan=False)]
    accepts: [None] or a number, not NaN. *)
Definition json_float_ok (o : option PyFloat) : bool :=
  match o with Some FNaN => false | _ => true end.

Definition stock_info_json_ok (si : StockInfo) : bool :=
  json_float_ok (rsi si) && json_float_ok (macd si) && json_float_ok (boll_upper si) &&
  json_float_ok (boll_lower si) && json_float_ok (mfi si) && json_float_ok (obv si) &&
  json_float_ok (atr si).

(** Whether Starlette's [JSONResponse(content=...)], which renders with
    [json.dumps(..., allow_nan=False)] when it is built, accepts the [stats]
    map; otherwise it raises [ValueError]. *)
Definition stats_json_ok (stats : gmap string StockInfo) : bool :=
  bool_decide (map_Forall (fun _ si => stock_info_json_ok si = true) stats).

(** [/trade-insights].  The success branch returns the pydantic model,
    which FastAPI serialises after the handler has returned; the [except]
    branch builds the [JSONResponse] inside the handler, so a NaN in
    [stats] makes the handler itself raise. *)
Definition trade_insights (E : Env) (req : Request) : M InsightsResponse :=
  let! msgs := insights_gather E req in
  try_catch
    (let! ai_response := call (SynthCall msgs) (together E msgs) in
     ret (InsightsOk ai_response (msg_stats msgs)))
    (fun e => if stats_json_ok (msg_stats msgs)
              then ret (InsightsError 500 ("Error: " ++ exn_message e) (msg_stats msgs))
              else raise ValueError).

Definition portfolio_analytics (E : Env) (req : Request) : M PortfolioAnalytics :=
  get_portfolio_analytics E (default [("AAPL", 10); ("MSFT", 5)] (req_holdings req)).

(* ------------------------------------------------------------------ *)
(** ** The other endpoints *)

(** One entry of [/sentiment-history]: [{"date": ..., "sentiment": ...}]. *)
Record SentimentPoint := mkSentimentPoint { sp_date : Z; sp_sentiment : string }.

(** [sentiment_history(news_topic)]: ten days back from [datetime.now()],
    with [sentiments[i % 3]]; the topic is not read. *)
Definition sentiment_history (E : Env) (news_topic : string) : list SentimentPoint :=
  map (fun i => mkSentimentPoint (now_day E - Z.of_nat i)%Z (nth (i mod 3) sentiments ""))
      (seq 0 10).

(** A chat message [{"role": ..., "content": ...}] of [ask_together]. *)
Record ChatMessage := mkChatMessage { role : string; content : string }.

(** ["\n\n"] and ["\n"]. *)
Definition blank_line : string := "

".
Definition newline : string := "
".

(** The endpoints below call the completion API once, through [ask]
    ([ask_together]); each returns the messages it sent and its response. *)

Inductive BacktestResponse :=
| BacktestOk (backtest_result : string)
| BacktestError (status_code : Z) (backtest_result : string).

Definition backtest_system_prompt : string :=
  "You are a quant analyst. Summarize:
- The logic in plain English
- Expected performance (win rate, avg return, drawdown)
- Main risks and market conditions
- No code, only insights.".

(** [/backtest]; [strategy] is [data.get("strategy")], a string or missing. *)
Definition backtest (ask : list ChatMessage -> Result string) (strategy : option string)
  : list ChatMessage * BacktestResponse :=
  let strategy := default
    "Backtest a simple moving average crossover on BTC-USD for the last 2 years." strategy in
  let messages := [mkChatMessage "system" backtest_system_prompt;
                   mkChatMessage "user" strategy] in
  (messages,
   match ask messages with
   | Ok ai_response => BacktestOk ai_response
   | Err e => BacktestError 500 ("Error: " ++ exn_message e)
   end).

Inductive CompareResponse :=
| CompareOk (comparison : string)
| CompareError (status_code : Z) (comparison : string).

Definition compare_system_prompt : string :=
  "You are a trading strategy expert. Compare the following strategies. Summarize logic, performance, risk, and optimal market conditions.".

(** [/compare-strategies]; [strategies] is [data.get("strategies", [])]. *)
Definition compare_strategies (ask : list ChatMessage -> Result string)
    (strategies : option (list string)) : list ChatMessage * CompareResponse :=
  let strategies := default [] strategies in
  let user_prompt := String.concat blank_line strategies in
  let messages := [mkChatMessage "system" compare_system_prompt;
                   mkChatMessage "user" user_prompt] in
  (messages,
   match ask messages with
   | Ok ai_response => CompareOk ai_response
   | Err e => CompareError 500 ("Error: " ++ exn_message e)
   end).

(** A JSON value other than [null], as [request.json()] parses it; numbers,
    arrays and objects carry the text Python's [str] gives them. *)
Inductive JsonValue :=
| JStr (s : string)
| JNum (repr : string)
| JBool (b : bool)
| JArr (repr : string)
| JObj (repr : string).

(** [f"{x}"] of a value read with [data.get(key)]: [None] when the key is
    missing or [null]. *)
Definition py_str_json (o : option JsonValue) : string :=
  match o with
  | None => "None"
  | Some (JStr s) => s
  | Some (JNum r) | Some (JArr r) | Some (JObj r) => r
  | Some (JBool b) => if b then "True" else "False"
  end.

(** Validation of a pydantic [str] field.  Strings pass unchanged and
    [None], arrays and objects are rejected in every pydantic version;
    numbers and booleans are coerced by pydantic 1 and rejected by
    pydantic 2, so the endpoint takes the validator as a parameter. *)
Definition pydantic_v1_str (v : JsonValue) : option string :=
  match v with
  | JStr s => Some s
  | JNum r => Some r
  | JBool b => Some (if b then "True" else "False")
  | JArr _ | JObj _ => None
  end.

Definition pydantic_v2_str (v : JsonValue) : option string :=
  match v with JStr s => Some s | _ => None end.

(** [BacktestComparison(...)] or the 500 [JSONResponse] with
    [{"discrepancies": "Error: ..."}]. *)
Inductive ComparisonResponse :=
| ComparisonOk (backtest_summary live_summary discrepancies : string)
| ComparisonError (status_code : Z) (discrepancies : string).

Definition backtest_vs_live_system_prompt : string :=
  "You are an AI trading analyst. Compare backtest and live trading results. Highlight discrepancies, possible causes, and suggest optimizations.".

(** A field read with [data.get(key)] and validated as [str]: a missing
    key or [null] gives [None], which a [str] field rejects. *)
Definition validated_field (str_field : JsonValue -> option string)
    (o : option JsonValue) : option string :=
  match o with Some v => str_field v | None => None end.

(** [/backtest-vs-live]; the two fields are [data.get(...)].  Building
    [BacktestComparison] validates them as [str] with [str_field], inside
    the [try], so a rejected value gives the 500 response. *)
Definition backtest_vs_live (str_field : JsonValue -> option string)
    (ask : list ChatMessage -> Result string)
    (backtest_data live_data : option JsonValue) : list ChatMessage * ComparisonResponse :=
  let user_prompt := ("Backtest: " ++ py_str_json backtest_data ++ newline ++
                      "Live: " ++ py_str_json live_data)%string in
  let messages := [mkChatMessage "system" backtest_vs_live_system_prompt;
                   mkChatMessage "user" user_prompt] in
  let handler e := ComparisonError 500 ("Error: " ++ exn_message e)%string in
  (messages,
   match ask messages with
   | Ok ai_response =>
       match validated_field str_field backtest_data,
             validated_field str_field live_data with
       | Some b, Some l => ComparisonOk b l ai_response
       | _, _ => handler ValidationError
       end
   | Err e => handler e
   end).

(* ------------------------------------------------------------------ *)
(** ** A concrete environment, to run the model on *)

Definition bar (c : Q) : Bar := mkBar (c + 1) (c - 1) c 100.

(** A currency-pair bar: yfinance reports no volume for it. *)
Definition fx_bar : Bar := mkBar (11#10) (1#1) (21#20) 0.

(** "AAPL" and "MSFT" have three daily bars, "ZERO" a first close of 0,
    "T1" times out, "EURUSD=X" has fourteen bars without volume (its money
    flow index is NaN), every other symbol has two bars.  Volatility is 1/10
    for "MSFT" and 1/20 otherwise; every quote is 12 except "ZERO"'s,
    which is 0.  The news search rejects an empty query and the completion
    API rejects the query "fail". *)
Definition demo_env : Env := {|
  yf_history := fun s =>
    if String.eqb s "T1" then Err (UpstreamError "Read timed out")
    else if String.eqb s "AAPL" then Ok [bar 10; bar 11; bar 12]
    else if String.eqb s "MSFT" then Ok [bar 20; bar 21; bar 22]
    else if String.eqb s "ZERO" then Ok [bar 5; bar 6]
    else if String.eqb s "EURUSD=X" then Ok (repeat fx_bar 14)
    else Ok [bar 5; bar 6];
  yf_info := fun s =>
    Ok (mkInfo (Some s) (Some (if String.eqb s "ZERO" then 0 else 12)) (Some 11) (Some "USD"));
  ta_rsi := fun _ => Ok (FNum 50);
  ta_macd := fun _ => Ok (FNum 1);
  ta_bollinger := fun _ => Ok tt;
  ta_boll_hband := fun _ => Ok (FNum 13);
  ta_boll_lband := fun _ => Ok (FNum 9);
  ta_mfi := fun hist =>
    if forallb (fun b => Qeq_bool (Volume b) 0) hist then Ok FNaN else Ok (FNum 40);
  ta_obv := fun _ => Ok (FNum 200);
  ta_atr := fun _ => Ok (FNum 2);
  ta_volatility := fun close =>
    match close with
    | c :: _ => if Qeq_bool c 20 then Ok (1#10) else Ok (1#20)
    | [] => Err IndexError
    end;
  stockinfo_valid := fun _ => true;
  ddgs_news := fun q _ =>
    if String.eqb q "" then Err (UpstreamError "keywords is mandatory")
    else Ok [mkRawNews (Some q) (Some "https://example.com") (Some "body")];
  together := fun msgs =>
    if String.eqb (msg_query msgs) "fail" then Err (UpstreamError "401 Unauthorized")
    else Ok "Hold.";
  now_day := 0;
  latency := fun c =>
    match c with
    | HistoryCall s => if String.eqb s "T1" then 10 else 1
    | SynthCall _ => 3
    | _ => 1
    end
|}.

(** The [StockInfo] that [get_stock_info] returns (it never raises). *)
Definition run_stock_info (E : Env) (sym : string) : StockInfo :=
  match outcome (get_stock_info E sym) with Ok si => si | Err _ => symbol_only sym end.

(** [info] with its [price] replaced, e.g. by [None]. *)
Definition with_price (info : StockInfo) (p : option Q) : StockInfo :=
  mkStockInfo (name info) (symbol info) p (previous_close info) (currency info)
    (price_week_ago info) (price_month_ago info) (volume info) (avg_volume info)
    (volatility info) (rsi info) (macd info) (boll_upper info) (boll_lower info)
    (mfi info) (obv info) (atr info) (alert info).

(* ------------------------------------------------------------------ *)
(** ** Portfolio analytics as the specification words them

    Stated over an inclusion test on the resolved [StockInfo] of each
    holding, so that the spec's test ("price and price_month_ago present")
    and the code's (both truthy) can be compared. *)

(** Each holding with its resolved [StockInfo], in the order of the map. *)
Definition holding_infos (E : Env) (holdings : list (string * Q)) : list (StockInfo * Q) :=
  map (fun sq => (run_stock_info E (fst sq), snd sq)) holdings.

Definition is_present {A} (o : option A) : bool :=
  match o with Some _ => true | None => false end.

(** The inclusion test of the spec: both prices present. *)
Definition prices_present (i : StockInfo) : bool :=
  is_present (price i) && is_present (price_month_ago i).

(** Both prices present and non-zero. *)
Definition prices_nonzero (i : StockInfo) : bool :=
  truthy (price i) && truthy (price_month_ago i).

Definition spec_value (iq : StockInfo * Q) : Q :=
  match price (fst iq) with Some p => p * snd iq | None => 0 end.

Definition spec_return (i : StockInfo) : Q :=
  match price i, price_month_ago i with
  | Some p, Some pm => (p - pm) / pm
  | _, _ => 0
  end.

(** Annualised volatility, 0 when absent. *)
Definition spec_vol (i : StockInfo) : Q :=
  match volatility i with Some v => v | None => 0 end.

Definition qsum (l : list Q) : Q := fold_right Qplus 0 l.

(** Arithmetic mean, 0 for the empty list. *)
Definition qmean (l : list Q) : Q :=
  match l with
  | [] => 0
  | _ => qsum l / inject_Z (Z.of_nat (length l))
  end.

Definition portfolio_spec (incl : StockInfo -> bool) (E : Env)
    (holdings : list (string * Q)) : Prop :=
  let inc := List.filter (fun iq => incl (fst iq)) (holding_infos E holdings) in
  let rets := map (fun iq => spec_return (fst iq)) inc in
  let vols := map (fun iq => spec_vol (fst iq)) inc in
  exists pa, outcome (get_portfolio_analytics E holdings) = Ok pa /\
    (total_value pa == qsum (map spec_value inc)) /\
    (returns pa == qmean rets) /\
    (pa_volatility pa == qmean vols) /\
    (sharpe pa == (if Qeq_bool (pa_volatility pa) 0 then 0
                   else returns pa / pa_volatility pa)) /\
    (rets = [] -> drawdown pa == 0) /\
    (rets <> [] -> In (drawdown pa) rets /\ Forall (fun r => drawdown pa <= r) rets).

(** The risk tier as the spec words it: Low below 0.05, Medium in
    [0.05, 0.10), High from 0.10 on. *)
Definition spec_risk_level (v : Q) : string :=
  if Qlt_le_dec v (1#20) then "Low"
  else if Qlt_le_dec v (1#10) then "Medium"
  else "High".




(** An insights request over five tickers, one of which ("T1") times out. *)
Definition demo_five_request : Request :=
  mkRequest None (Some ["T1"; "AAPL"; "MSFT"; "ZERO"; "IBM"]) None.

(** [demo_env] whose news search answers with a complete result followed
    by one without a ["body"] key. *)
Definition demo_env_partial_news : Env := {|
  yf_history := yf_history demo_env;
  yf_info := yf_info demo_env;
  ta_rsi := ta_rsi demo_env;
  ta_macd := ta_macd demo_env;
  ta_bollinger := ta_bollinger demo_env;
  ta_boll_hband := ta_boll_hband demo_env;
  ta_boll_lband := ta_boll_lband demo_env;
  ta_mfi := ta_mfi demo_env;
  ta_obv := ta_obv demo_env;
  ta_atr := ta_atr demo_env;
  ta_volatility := ta_volatility demo_env;
  stockinfo_valid := stockinfo_valid demo_env;
  ddgs_news := fun q _ =>
    Ok [mkRawNews (Some q) (Some "https://example.com") (Some "body");
        mkRawNews (Some q) (Some "https://example.com/2") None];
  together := together demo_env;
  now_day := now_day demo_env;
  latency := latency demo_env
|}.

(** A completion API that answers every request, and one that rejects
    every request. *)
Definition ask_ok : list ChatMessage -> Result string := fun _ => Ok "Looks fine.".
Definition ask_down : list ChatMessage -> Result string :=
  fun _ => Err (UpstreamError "503 Service Unavailable").

(** A news result carries the keys ["title"], ["url"] and ["body"]. *)
Definition keys_present (r : RawNews) : Prop :=
  r_title r <> None /\ r_url r <> None /\ r_body r <> None.

(** An insights request on "AAPL" and the timing-out "T1" whose
    synthesis call succeeds. *)
Definition demo_ok_request : Request := mkRequest None (Some ["AAPL"; "T1"]) None.

(* ================================================================== *)
(** * Proofs *)

(** ** The monad *)

Lemma outcome_bindM {A B} (m : M A) (f : A -> M B) :
  outcome (bindM m f) =
  match outcome m with Ok a => outcome (f a) | Err e => Err e end.
Proof.
  destruct m as [l [a|e]]; unfold outcome; simpl; [destruct (f a)|]; reflexivity.
Qed.

Lemma trace_bindM {A B} (m : M A) (f : A -> M B) :
  trace (bindM m f) =
  trace m ++ match outcome m with Ok a => trace (f a) | Err _ => [] end.
Proof.
  destruct m as [l [a|e]]; unfold trace, outcome; simpl;
    [destruct (f a)|rewrite app_nil_r]; reflexivity.
Qed.

Lemma bind_ok_inv {A B} (m : M A) (f : A -> M B) (b : B) :
  outcome (bindM m f) = Ok b -> exists a, outcome m = Ok a /\ outcome (f a) = Ok b.
Proof.
  rewrite outcome_bindM. destruct (outcome m) as [a|e]; [eauto|discriminate].
Qed.

Lemma outcome_try_except {A} (m : M A) (h : exn -> A) :
  outcome (try_except m h) =
  Ok (match outcome m with Ok a => a | Err e => h e end).
Proof. destruct m as [l [a|e]]; reflexivity. Qed.

Lemma trace_try_except {A} (m : M A) (h : exn -> A) :
  trace (try_except m h) = trace m.
Proof. destruct m as [l [a|e]]; reflexivity. Qed.

Lemma outcome_try_catch {A} (m : M A) (h : exn -> M A) :
  outcome (try_catch m h) =
  match outcome m with Ok a => Ok a | Err e => outcome (h e) end.
Proof. destruct m as [l [a|e]]; [reflexivity|]. simpl. destruct (h e); reflexivity. Qed.

Lemma trace_try_catch {A} (m : M A) (h : exn -> M A) :
  trace (try_catch m h) =
  trace m ++ match outcome m with Ok _ => [] | Err e => trace (h e) end.
Proof.
  destruct m as [l [a|e]]; unfold trace, outcome; simpl;
    [rewrite app_nil_r | destruct (h e)]; reflexivity.
Qed.

Lemma opt_when_false {A} (c : bool) (r : Result A) (o : option A) :
  outcome (opt_when c r) = Ok o -> c = false -> o = None.
Proof. intros H ->. now injection H. Qed.

Ltac kill_windows :=
  repeat match goal with
    | Hw : outcome (opt_when _ _) = Ok _ |- _ =>
        eapply opt_when_false in Hw;
        [| first [apply Nat.leb_gt | apply Nat.ltb_ge]; lia]
    end;
  repeat split; assumption.

Ltac peel H :=
  repeat (let a := fresh "v" in let Ha := fresh "Hv" in
          apply bind_ok_inv in H as [a [Ha H]]; cbv beta zeta in H).

(** ** The market-data gateway *)

Lemma stock_info_body_ok (E : Env) (sym : string) (si : StockInfo) :
  outcome (stock_info_body E sym) = Ok si ->
  exists hist, yf_history E sym = Ok hist /\ symbol si = Some sym /\
    ((length hist < 14)%nat -> rsi si = None /\ mfi si = None /\ atr si = None) /\
    ((length hist < 20)%nat -> boll_upper si = None /\ boll_lower si = None) /\
    ((length hist < 26)%nat -> macd si = None) /\
    ((length hist < 2)%nat -> volatility si = None /\ obv si = None) /\
    alert si = alert_of (volatility si).
Proof.
  intros H. unfold stock_info_body in H. peel H.
  match type of H with
  | outcome (if ?b then _ else _) = _ => destruct b
  end; [injection H as <- | discriminate].
  unfold call, outcome in Hv; simpl in Hv.
  exists v. rewrite length_map in *. simpl.
  split; [assumption|]. split; [reflexivity|].
  repeat (split; [intros Hn; kill_windows|]); reflexivity.
Qed.

Lemma get_stock_info_cases (E : Env) (sym : string) :
  trace (get_stock_info E sym) = trace (stock_info_body E sym) /\
  outcome (get_stock_info E sym) =
  Ok (match outcome (stock_info_body E sym) with
      | Ok si => si
      | Err _ => symbol_only sym
      end).
Proof.
  unfold get_stock_info. split.
  - apply trace_try_except.
  - apply outcome_try_except.
Qed.

Lemma get_stock_info_total (E : Env) (sym : string) :
  outcome (get_stock_info E sym) = Ok (run_stock_info E sym).
Proof.
  unfold run_stock_info. destruct (get_stock_info_cases E sym) as [_ ->]. reflexivity.
Qed.

Lemma alert_of_spec (o : option Q) :
  alert_of o <> None <-> exists v, o = Some v /\ 1#20 < v.
Proof.
  destruct o as [v|]; simpl.
  - unfold truthy, py_gt.
    destruct (Qeq_bool v 0) eqn:E0; destruct (Qle_bool v (1#20)) eqn:E1; simpl;
      [apply Qeq_bool_iff in E0 | apply Qeq_bool_iff in E0 |
       apply Qle_bool_iff in E1 | ];
      split; intros H; try congruence;
      try (destruct H as [w [Hw Hlt]]; injection Hw as <-);
      try (destruct v as [n d]; unfold Qeq, Qle, Qlt in *; simpl in *; lia).
    exists v. split; [reflexivity|].
    apply Qnot_le_lt. intros Hle. apply Qle_bool_iff in Hle. congruence.
  - split; [congruence | intros [w [Hw _]]; discriminate].
Qed.

(** C6. For every price series returned for a symbol, [get_stock_info]
    omits each indicator whose minimum window is not met: RSI, MFI and ATR
    with fewer than 14 bars, the Bollinger bands with fewer than 20, MACD
    with fewer than 26, annualised volatility and OBV with fewer than 2. *)
Theorem get_stock_info_indicator_windows (E : Env) (sym : string) (hist : list Bar) :
  yf_history E sym = Ok hist ->
  let si := run_stock_info E sym in
  ((length hist < 14)%nat -> rsi si = None /\ mfi si = None /\ atr si = None) /\
  ((length hist < 20)%nat -> boll_upper si = None /\ boll_lower si = None) /\
  ((length hist < 26)%nat -> macd si = None) /\
  ((length hist < 2)%nat -> volatility si = None /\ obv si = None).
Proof.
  intros Hh si. unfold si, run_stock_info.
  destruct (get_stock_info_cases E sym) as [_ ->].
  destruct (outcome (stock_info_body E sym)) as [s|e] eqn:Hb.
  - destruct (stock_info_body_ok E sym s Hb)
      as (hist' & Hh' & _ & H14 & H20 & H26 & H2 & _).
    rewrite Hh in Hh'. injection Hh' as <-. auto.
  - simpl. repeat split.
Qed.

Lemma get_stock_info_indicator_windows_witness :
  let si := run_stock_info demo_env "AAPL" in
  ((length [bar 10; bar 11; bar 12] < 14)%nat ->
     rsi si = None /\ mfi si = None /\ atr si = None) /\
  ((length [bar 10; bar 11; bar 12] < 20)%nat ->
     boll_upper si = None /\ boll_lower si = None) /\
  ((length [bar 10; bar 11; bar 12] < 26)%nat -> macd si = None) /\
  ((length [bar 10; bar 11; bar 12] < 2)%nat -> volatility si = None /\ obv si = None).
Proof.
  apply (get_stock_info_indicator_windows demo_env "AAPL" [bar 10; bar 11; bar 12]).
  reflexivity.
Defined.

(** C7. For every symbol, the [alert] field of the [StockInfo] returned by
    [get_stock_info] is set exactly when its annualised volatility is
    present and strictly greater than 0.05. *)
Theorem get_stock_info_alert_iff_volatility (E : Env) (sym : string) :
  let si := run_stock_info E sym in
  alert si <> None <-> exists v, volatility si = Some v /\ 1#20 < v.
Proof.
  intros si. unfold si, run_stock_info.
  destruct (get_stock_info_cases E sym) as [_ ->].
  destruct (outcome (stock_info_body E sym)) as [s|e] eqn:Hb.
  - destruct (stock_info_body_ok E sym s Hb) as (_ & _ & _ & _ & _ & _ & _ & Ha).
    rewrite Ha. apply alert_of_spec.
  - simpl. split; [congruence | intros [v [Hv _]]; discriminate].
Qed.

(** C8. For every symbol, if fetching or deriving its data raises any
    exception, [get_stock_info] does not raise: it returns the [StockInfo]
    with [symbol] set to the requested symbol and every other field
    absent. *)
Theorem get_stock_info_failure_symbol_only (E : Env) (sym : string) (e : exn) :
  outcome (stock_info_body E sym) = Err e ->
  outcome (get_stock_info E sym) = Ok (symbol_only sym).
Proof.
  intros Hb. destruct (get_stock_info_cases E sym) as [_ ->]. now rewrite Hb.
Qed.

Lemma get_stock_info_failure_symbol_only_witness :
  outcome (stock_info_body demo_env "T1") = Err (UpstreamError "Read timed out") /\
  outcome (get_stock_info demo_env "T1") = Ok (symbol_only "T1").
Proof.
  split; [reflexivity|].
  apply (get_stock_info_failure_symbol_only demo_env "T1" (UpstreamError "Read timed out")).
  reflexivity.
Defined.

(** ** The news collector *)

(** C9. For every topic and result bound, if the news search collaborator
    raises any exception, [search_news] returns the empty list instead of
    propagating it. *)
Theorem search_news_failure_empty (E : Env) (query : string) (max_results : Z) (e : exn) :
  ddgs_news E query max_results = Err e ->
  search_news E query max_results = ([NewsCall query max_results], Ok []).
Proof.
  intros Hf. unfold search_news, call. rewrite Hf. reflexivity.
Qed.

Lemma search_news_failure_empty_witness :
  search_news demo_env "" 5 = ([NewsCall "" 5], Ok []).
Proof.
  apply (search_news_failure_empty demo_env "" 5 (UpstreamError "keywords is mandatory")).
  reflexivity.
Defined.

(** [search_news] never raises, whatever its collaborator does. *)
Lemma search_news_total (E : Env) (query : string) (max_results : Z) :
  exists items, outcome (search_news E query max_results) = Ok items.
Proof. unfold search_news. rewrite outcome_try_except. eauto. Qed.

(** ** Arithmetic helpers *)

Lemma fold_left_Qplus (l : list Q) (a : Q) :
  fold_left Qplus l a == a + qsum l.
Proof.
  revert a; induction l as [|x l IH]; intros a; simpl.
  - ring.
  - rewrite IH. unfold qsum; simpl. ring.
Qed.

Lemma py_sum_qsum (l : list Q) : py_sum l == qsum l.
Proof. unfold py_sum. rewrite fold_left_Qplus. ring. Qed.

Lemma qsum_Forall2 (l1 l2 : list Q) :
  Forall2 Qeq l1 l2 -> qsum l1 == qsum l2.
Proof.
  induction 1 as [|x y l1 l2 Hxy _ IH]; unfold qsum in *; simpl.
  - reflexivity.
  - rewrite Hxy, IH. reflexivity.
Qed.

Lemma qsum_app (l1 l2 : list Q) : qsum (l1 ++ l2) == qsum l1 + qsum l2.
Proof.
  induction l1 as [|x l1 IH]; unfold qsum in *; simpl.
  - ring.
  - rewrite IH. ring.
Qed.

Lemma py_min_in (x : Q) (l : list Q) : In (py_min x l) (x :: l).
Proof.
  revert x; induction l as [|a l IH]; intros x; simpl.
  - now left.
  - unfold py_min in *; simpl.
    destruct (Qlt_le_dec a x).
    + destruct (IH a) as [H|H]; simpl; auto.
    + destruct (IH x) as [H|H]; simpl; auto.
Qed.

Lemma py_min_le (x : Q) (l : list Q) : Forall (fun r => py_min x l <= r) (x :: l).
Proof.
  revert x; induction l as [|a l IH]; intros x; simpl.
  - constructor; [apply Qle_refl | constructor].
  - unfold py_min in *; simpl.
    destruct (Qlt_le_dec a x) as [Hax|Hxa].
    + specialize (IH a). inversion IH as [|? ? Hm Hl]; subst.
      constructor; [|constructor; assumption].
      apply Qle_trans with a; [assumption | apply Qlt_le_weak; assumption].
    + specialize (IH x). inversion IH as [|? ? Hm Hl]; subst.
      constructor; [assumption | constructor; [|assumption]].
      apply Qle_trans with x; assumption.
Qed.

Lemma py_len_pos {A} (l : list A) : l <> [] -> ~ py_len l == 0.
Proof.
  destruct l as [|a l]; [congruence|]. intros _.
  unfold py_len, Qeq; simpl. lia.
Qed.

Lemma Forall2_Qeq_refl (l : list Q) : Forall2 Qeq l l.
Proof. induction l; constructor; [reflexivity | assumption]. Qed.

Lemma mean_Forall2 (l1 l2 : list Q) :
  Forall2 Qeq l1 l2 ->
  match l1 with [] => 0 | _ => py_sum l1 / py_len l1 end == qmean l2.
Proof.
  intros H. assert (length l1 = length l2) as Hlen by (eapply Forall2_length; eauto).
  destruct H as [|x y l1 l2 Hxy Hl].
  - reflexivity.
  - unfold qmean, py_len. rewrite py_sum_qsum, (qsum_Forall2 (x :: l1) (y :: l2)).
    + rewrite Hlen. reflexivity.
    + constructor; assumption.
Qed.

(** ** The portfolio analytics engine *)

Lemma outcome_mean_or_0 (l : list Q) :
  outcome (mean_or_0 l) = Ok (match l with [] => 0 | _ => py_sum l / py_len l end).
Proof.
  destruct l as [|x l]; [reflexivity|].
  unfold mean_or_0, lift, outcome, py_div; simpl.
  destruct (Qeq_bool (py_len (x :: l)) 0) eqn:Hz; [|reflexivity].
  apply Qeq_bool_iff in Hz. exfalso. revert Hz. apply py_len_pos. congruence.
Qed.

Lemma vol_or_0_spec (o : option Q) :
  vol_or_0 o == match o with Some v => v | None => 0 end.
Proof.
  destruct o as [v|]; simpl; [|reflexivity].
  unfold truthy. destruct (Qeq_bool v 0) eqn:Hz; simpl; [|reflexivity].
  apply Qeq_bool_iff in Hz. symmetry. exact Hz.
Qed.

Lemma pa_update_cases (acc : Acc) (qty : Q) (info : StockInfo) :
  (prices_nonzero info = false -> pa_update acc qty info = Ok acc) /\
  (prices_nonzero info = true ->
   exists ps, pa_update acc qty info =
     Ok (mkAcc (acc_total acc + spec_value (info, qty))
               (acc_returns acc ++ [spec_return info])
               (acc_vols acc ++ [vol_or_0 (volatility info)]) ps)).
Proof.
  unfold pa_update, prices_nonzero, spec_value, spec_return; simpl.
  split; intros Hn; rewrite Hn; [reflexivity|].
  destruct (price info) as [p|]; [|discriminate].
  destruct (price_month_ago info) as [pm|]; [|rewrite andb_false_r in Hn; discriminate].
  apply andb_prop in Hn as [_ Hpm]. unfold truthy in Hpm.
  unfold py_div. destruct (Qeq_bool pm 0); [discriminate|]. eexists. reflexivity.
Qed.

Lemma pa_loop_inv (E : Env) (holdings : list (string * Q)) (acc : Acc) :
  let inc := List.filter (fun iq => prices_nonzero (fst iq)) (holding_infos E holdings) in
  exists acc', outcome (pa_loop E holdings acc) = Ok acc' /\
    (acc_total acc' == acc_total acc + qsum (map spec_value inc)) /\
    acc_returns acc' = acc_returns acc ++ map (fun iq => spec_return (fst iq)) inc /\
    Forall2 Qeq (acc_vols acc') (acc_vols acc ++ map (fun iq => spec_vol (fst iq)) inc).
Proof.
  revert acc; induction holdings as [|[sym qty] rest IH]; intros acc inc; simpl in inc.
  - exists acc. unfold inc; simpl. rewrite !app_nil_r.
    split; [reflexivity|]. split; [unfold qsum; simpl; ring|].
    split; [reflexivity | apply Forall2_Qeq_refl].
  - assert (Hstep : outcome (pa_loop E ((sym, qty) :: rest) acc) =
              match pa_update acc qty (run_stock_info E sym) with
              | Ok a => outcome (pa_loop E rest a)
              | Err e => Err e
              end).
    { change (pa_loop E ((sym, qty) :: rest) acc) with
        (let! info := get_stock_info E sym in
         let! acc' := lift (pa_update acc qty info) in pa_loop E rest acc').
      rewrite outcome_bindM, get_stock_info_total. cbv beta.
      rewrite outcome_bindM. reflexivity. }
    rewrite Hstep.
    destruct (pa_update_cases acc qty (run_stock_info E sym)) as [Hno Hyes].
    unfold inc; clear inc.
    destruct (prices_nonzero (run_stock_info E sym)) eqn:Hn; simpl.
    + destruct (Hyes eq_refl) as [ps ->].
      destruct (IH (mkAcc (acc_total acc + spec_value (run_stock_info E sym, qty))
                          (acc_returns acc ++ [spec_return (run_stock_info E sym)])
                          (acc_vols acc ++ [vol_or_0 (volatility (run_stock_info E sym))])
                          ps)) as (acc' & Hl & Ht & Hr & Hv).
      exists acc'. simpl in *. split; [exact Hl|]. split; [|split].
      * rewrite Ht. unfold qsum; simpl. ring.
      * rewrite Hr, <- app_assoc. reflexivity.
      * rewrite <- app_assoc in Hv. simpl in Hv.
        eapply Forall2_trans with (R := Qeq); [intros ? ? ? H1 H2; rewrite H1; exact H2|exact Hv|].
        apply Forall2_app; [apply Forall2_Qeq_refl|].
        constructor; [apply vol_or_0_spec | apply Forall2_Qeq_refl].
    + rewrite (Hno eq_refl). apply IH.
Qed.

Lemma gpa_outcome (E : Env) (holdings : list (string * Q)) (acc : Acc) :
  outcome (pa_loop E holdings acc_init) = Ok acc ->
  exists ar av,
    ar = match acc_returns acc with
         | [] => 0 | _ => py_sum (acc_returns acc) / py_len (acc_returns acc) end /\
    av = match acc_vols acc with
         | [] => 0 | _ => py_sum (acc_vols acc) / py_len (acc_vols acc) end /\
    outcome (get_portfolio_analytics E holdings) =
    Ok (mkPortfolioAnalytics (acc_total acc) ar av
          (if truthy (Some av) then ar / av else 0)
          (match acc_returns acc with [] => 0 | r :: rs => py_min r rs end)
          (risk_of av)).
Proof.
  intros Hl. unfold get_portfolio_analytics.
  rewrite outcome_bindM, Hl. cbv beta.
  rewrite outcome_bindM, outcome_mean_or_0. cbv beta.
  rewrite outcome_bindM, outcome_mean_or_0. cbv beta.
  rewrite outcome_bindM.
  eexists; eexists; split; [reflexivity|]; split; [reflexivity|].
  unfold truthy, py_div, lift, ret, outcome; simpl.
  match goal with |- context [Qeq_bool ?v 0] => destruct (Qeq_bool v 0) end;
    reflexivity.
Qed.

(** [get_portfolio_analytics] never raises. *)
Lemma gpa_total (E : Env) (holdings : list (string * Q)) :
  exists pa, outcome (get_portfolio_analytics E holdings) = Ok pa.
Proof.
  destruct (pa_loop_inv E holdings acc_init) as (acc & Hl & _).
  destruct (gpa_outcome E holdings acc Hl) as (ar & av & _ & _ & H). eauto.
Qed.

(** C4 (as amended). For every holdings map, [get_portfolio_analytics]
    includes exactly the holdings whose resolved [price] and
    [price_month_ago] are both present and non-zero: [total_value] is the
    sum of [price * qty] over them; [returns] and [volatility] are the
    arithmetic means of their returns and of their volatilities (an absent
    volatility counting as 0), 0 when none is included; [sharpe] is
    [returns / volatility] when the volatility is non-zero and 0 otherwise;
    [drawdown] is the least individual return, 0 when none is included;
    the other holdings are skipped and the computation never raises. *)
Theorem get_portfolio_analytics_included (E : Env) (holdings : list (string * Q)) :
  portfolio_spec prices_nonzero E holdings.
Proof.
  unfold portfolio_spec. cbv zeta.
  destruct (pa_loop_inv E holdings acc_init) as (acc & Hl & Ht & Hr & Hv).
  cbv zeta in Ht, Hr, Hv. simpl in Ht, Hr, Hv.
  destruct (gpa_outcome E holdings acc Hl) as (ar & av & Har & Hav & Hg).
  eexists; split; [exact Hg|]. simpl.
  split; [rewrite Ht; ring|].
  split; [subst ar; rewrite Hr; apply mean_Forall2, Forall2_Qeq_refl|].
  split; [subst av; apply mean_Forall2; exact Hv|].
  split; [unfold truthy; destruct (Qeq_bool av 0); reflexivity|].
  rewrite Hr.
  destruct (map (fun iq => spec_return (fst iq)) _) as [|r rs].
  - split; [reflexivity | congruence].
  - split; [discriminate|]. intros _. split; [apply py_min_in | apply py_min_le].
Qed.

(** C4 (as stated) fails: a holding whose price is present but 0 is not
    included.  With the single holding "ZERO" (quote 0, first close 5),
    the spec's inclusion test admits it with return -1, while the code
    reports returns 0. *)
Lemma get_portfolio_analytics_present_counterexample :
  ~ portfolio_spec prices_present demo_env [("ZERO", 1)].
Proof.
  unfold portfolio_spec. cbv zeta.
  intros (pa & Hg & _ & Hr & _).
  vm_compute in Hg. injection Hg as <-.
  vm_compute in Hr. discriminate.
Qed.

(** C10. In [get_portfolio_analytics], a holding whose resolved [price] or
    [price_month_ago] is exactly 0 is handled like one whose price is
    absent: the loop body leaves [total_value] and the return, volatility
    and price lists unchanged; and the loop body never evaluates the
    return [(price - price_month_ago) / price_month_ago] with a zero
    divisor. *)
Theorem pa_update_zero_price_excluded (acc : Acc) (qty : Q) (info : StockInfo) :
  ((exists p, price info = Some p /\ p == 0) \/
   (exists pm, price_month_ago info = Some pm /\ pm == 0)) ->
  pa_update acc qty info = Ok acc /\
  pa_update acc qty (with_price info None) = Ok acc /\
  (forall acc' qty' info', pa_update acc' qty' info' <> Err ZeroDivisionError).
Proof.
  intros Hz. split; [|split].
  - apply (pa_update_cases acc qty info).
    unfold prices_nonzero, truthy.
    destruct Hz as [(p & -> & Hp) | (pm & -> & Hpm)].
    + apply Qeq_bool_iff in Hp. now rewrite Hp.
    + apply Qeq_bool_iff in Hpm. rewrite Hpm. apply andb_false_r.
  - apply (pa_update_cases acc qty (with_price info None)). reflexivity.
  - intros acc' qty' info'.
    destruct (pa_update_cases acc' qty' info') as [Hno Hyes].
    destruct (prices_nonzero info').
    + destruct (Hyes eq_refl) as [ps ->]. discriminate.
    + rewrite (Hno eq_refl). discriminate.
Qed.

Lemma pa_update_zero_price_excluded_witness :
  ((exists p, price (run_stock_info demo_env "ZERO") = Some p /\ p == 0) \/
   (exists pm, price_month_ago (run_stock_info demo_env "ZERO") = Some pm /\ pm == 0)) /\
  pa_update acc_init 1 (run_stock_info demo_env "ZERO") = Ok acc_init /\
  pa_update acc_init 1 (with_price (run_stock_info demo_env "ZERO") None) = Ok acc_init /\
  (forall acc' qty' info', pa_update acc' qty' info' <> Err ZeroDivisionError).
Proof.
  assert (Hz : (exists p, price (run_stock_info demo_env "ZERO") = Some p /\ p == 0) \/
               (exists pm, price_month_ago (run_stock_info demo_env "ZERO") = Some pm /\
                           pm == 0)).
  { left. exists 0. split; [vm_compute; reflexivity | reflexivity]. }
  split; [exact Hz|].
  apply (pa_update_zero_price_excluded acc_init 1 (run_stock_info demo_env "ZERO")).
  exact Hz.
Defined.

Lemma risk_of_tiers (v : Q) :
  (v <= 1#20 -> risk_of v = "Low") /\
  (1#20 < v -> v <= 1#10 -> risk_of v = "Medium") /\
  (1#10 < v -> risk_of v = "High").
Proof.
  unfold risk_of, py_gt.
  split; [|split].
  - intros H. assert (H' : v <= 1#10)
      by (apply Qle_trans with (1#20); [exact H | apply Qle_bool_iff; reflexivity]).
    apply Qle_bool_iff in H, H'. now rewrite H, H'.
  - intros H1 H2. apply Qle_bool_iff in H2. rewrite H2.
    destruct (Qle_bool v (1#20)) eqn:Hb; [|reflexivity].
    apply Qle_bool_iff in Hb. exfalso. exact (Qlt_not_le _ _ H1 Hb).
  - intros H.
    assert (H' : 1#20 < v)
      by (apply Qle_lt_trans with (1#10); [apply Qle_bool_iff; reflexivity | exact H]).
    destruct (Qle_bool v (1#10)) eqn:Hb.
    + apply Qle_bool_iff in Hb. exfalso. exact (Qlt_not_le _ _ H Hb).
    + destruct (Qle_bool v (1#20)) eqn:Hb'; [|reflexivity].
      apply Qle_bool_iff in Hb'. exfalso. exact (Qlt_not_le _ _ H' Hb').
Qed.

(** C1 (as amended). For every holdings map, the [risk_level] that
    [get_portfolio_analytics] reports is a function of the aggregate
    volatility it reports: Low when the volatility is at most 0.05, Medium
    when it is above 0.05 and at most 0.10, High when it is above 0.10
    (so exactly 0.05 yields Low and exactly 0.10 yields Medium). *)
Theorem get_portfolio_analytics_risk_level (E : Env) (holdings : list (string * Q)) :
  exists pa, outcome (get_portfolio_analytics E holdings) = Ok pa /\
    (pa_volatility pa <= 1#20 -> risk_level pa = "Low") /\
    (1#20 < pa_volatility pa -> pa_volatility pa <= 1#10 -> risk_level pa = "Medium") /\
    (1#10 < pa_volatility pa -> risk_level pa = "High").
Proof.
  destruct (pa_loop_inv E holdings acc_init) as (acc & Hl & _).
  destruct (gpa_outcome E holdings acc Hl) as (ar & av & _ & _ & Hg).
  eexists; split; [exact Hg|]. simpl. apply risk_of_tiers.
Qed.

(** C1 (as stated) fails at both boundaries: a portfolio whose aggregate
    volatility is exactly 0.05 ("AAPL" alone) is rated Low, not Medium,
    and one whose aggregate volatility is exactly 0.10 ("MSFT" alone) is
    rated Medium, not High. *)
Lemma get_portfolio_analytics_risk_boundary_counterexample :
  (exists pa, outcome (get_portfolio_analytics demo_env [("AAPL", 1)]) = Ok pa /\
     pa_volatility pa == 1#20 /\ risk_level pa = "Low" /\
     risk_level pa <> spec_risk_level (pa_volatility pa)) /\
  (exists pa, outcome (get_portfolio_analytics demo_env [("MSFT", 1)]) = Ok pa /\
     pa_volatility pa == 1#10 /\ risk_level pa = "Medium" /\
     risk_level pa <> spec_risk_level (pa_volatility pa)).
Proof.
  split; eexists; (split; [reflexivity|]);
    (split; [vm_compute; reflexivity|]); (split; [reflexivity|]);
    vm_compute; intros H; discriminate H.
Qed.

(** ** The insights endpoint *)

Lemma stats_comprehension_lookup (E : Env) (tickers : list string)
    (st : gmap string StockInfo) :
  exists m, outcome (stats_comprehension E tickers st) = Ok m /\
    forall k, (In k tickers -> m !! k = Some (run_stock_info E k)) /\
              (~ In k tickers -> m !! k = st !! k).
Proof.
  revert st; induction tickers as [|s rest IH]; intros st.
  - exists st. split; [reflexivity|]. intros k. split; [intros []|reflexivity].
  - simpl. rewrite outcome_bindM, get_stock_info_total. cbv beta.
    destruct (IH (<[s := run_stock_info E s]> st)) as (m & Hm & Hk).
    exists m. split; [exact Hm|]. intros k.
    destruct (Hk k) as [Hin Hout]. split.
    + intros Hk'. destruct (in_dec string_dec k rest) as [Hr|Hr]; [now apply Hin|].
      rewrite (Hout Hr). destruct Hk' as [<-|Hk']; [apply lookup_insert_eq | contradiction].
    + intros Hn. rewrite Hout by tauto. apply lookup_insert_ne. intros ->. apply Hn. now left.
Qed.

Lemma insights_gather_stats (E : Env) (req : Request) (msgs : Messages) :
  outcome (insights_gather E req) = Ok msgs ->
  let tickers := default ["BTC-USD"; "^IXIC"] (req_tickers req) in
  forall k, (In k tickers -> msg_stats msgs !! k = Some (run_stock_info E k)) /\
            (~ In k tickers -> msg_stats msgs !! k = None).
Proof.
  intros Hg tickers k. unfold insights_gather in Hg. fold tickers in Hg.
  apply bind_ok_inv in Hg as [stats [Hs Hg]]. cbv beta in Hg.
  apply bind_ok_inv in Hg as [news [_ Hg]]. cbv beta in Hg.
  injection Hg as <-. simpl.
  destruct (stats_comprehension_lookup E tickers ∅) as (m & Hm & Hk).
  rewrite Hs in Hm. injection Hm as <-. exact (Hk k).
Qed.

(** The gathering never raises. *)
Lemma insights_gather_ok (E : Env) (req : Request) :
  exists msgs, outcome (insights_gather E req) = Ok msgs.
Proof.
  unfold insights_gather.
  destruct (stats_comprehension_lookup E (default ["BTC-USD"; "^IXIC"] (req_tickers req)) ∅)
    as (m & Hm & _).
  rewrite outcome_bindM, Hm. cbv beta.
  destruct (search_news_total E
              (String.concat " " (default ["BTC-USD"; "^IXIC"] (req_tickers req))) 5)
    as [items Hi].
  rewrite outcome_bindM, Hi. eexists. reflexivity.
Qed.

Lemma stats_json_ok_lookup (m : gmap string StockInfo) (tickers : list string)
    (f : string -> StockInfo) :
  (forall k, (In k tickers -> m !! k = Some (f k)) /\ (~ In k tickers -> m !! k = None)) ->
  stats_json_ok m = forallb (fun k => stock_info_json_ok (f k)) tickers.
Proof.
  intros Hm. unfold stats_json_ok.
  destruct (forallb (fun k => stock_info_json_ok (f k)) tickers) eqn:Hf.
  - apply bool_decide_eq_true. unfold map_Forall. intros k si Hk.
    rewrite forallb_forall in Hf.
    destruct (in_dec string_dec k tickers) as [Hin|Hin].
    + rewrite (proj1 (Hm k) Hin) in Hk. injection Hk as <-. now apply Hf.
    + rewrite (proj2 (Hm k) Hin) in Hk. discriminate.
  - apply bool_decide_eq_false. unfold map_Forall. intros Hall.
    assert (Ht : forallb (fun k => stock_info_json_ok (f k)) tickers = true).
    { apply forallb_forall. intros k Hin. apply (Hall k). now apply Hm. }
    congruence.
Qed.

Lemma trade_insights_outcome (E : Env) (req : Request) (msgs : Messages) :
  outcome (insights_gather E req) = Ok msgs ->
  outcome (trade_insights E req) =
    match together E msgs with
    | Ok r => Ok (InsightsOk r (msg_stats msgs))
    | Err e => if stats_json_ok (msg_stats msgs)
               then Ok (InsightsError 500 ("Error: " ++ exn_message e) (msg_stats msgs))
               else Err ValueError
    end.
Proof.
  intros Hg. unfold trade_insights. rewrite outcome_bindM, Hg. cbv beta.
  rewrite outcome_try_catch. unfold call, outcome at 1; simpl.
  destruct (together E msgs); [reflexivity|].
  destruct (stats_json_ok (msg_stats msgs)); reflexivity.
Qed.




(** ** Upstream calls issued by the endpoints *)

Lemma pa_update_ok (acc : Acc) (qty : Q) (info : StockInfo) :
  exists acc', pa_update acc qty info = Ok acc'.
Proof.
  destruct (pa_update_cases acc qty info) as [Hno Hyes].
  destruct (prices_nonzero info);
    [destruct (Hyes eq_refl) as [ps ->] | rewrite (Hno eq_refl)]; eauto.
Qed.

Lemma pa_loop_trace (E : Env) (holdings : list (string * Q)) (acc : Acc) :
  trace (pa_loop E holdings acc) =
  flat_map (fun sq => trace (get_stock_info E (fst sq))) holdings.
Proof.
  revert acc; induction holdings as [|[sym qty] rest IH]; intros acc; [reflexivity|].
  change (pa_loop E ((sym, qty) :: rest) acc) with
    (let! info := get_stock_info E sym in
     let! acc' := lift (pa_update acc qty info) in pa_loop E rest acc').
  rewrite trace_bindM, get_stock_info_total. cbv beta.
  rewrite trace_bindM. destruct (pa_update_ok acc qty (run_stock_info E sym)) as [a Ha].
  unfold lift, trace at 2, outcome; simpl. rewrite Ha. simpl. rewrite IH. reflexivity.
Qed.

Lemma gpa_trace (E : Env) (holdings : list (string * Q)) :
  trace (get_portfolio_analytics E holdings) =
  flat_map (fun sq => trace (get_stock_info E (fst sq))) holdings.
Proof.
  rewrite <- (pa_loop_trace E holdings acc_init).
  destruct (pa_loop_inv E holdings acc_init) as (acc & Hl & _).
  unfold get_portfolio_analytics. rewrite trace_bindM, Hl. cbv beta.
  unfold mean_or_0, truthy.
  destruct (acc_returns acc), (acc_vols acc); simpl; unfold trace; simpl.
  all: unfold py_div;
    repeat match goal with |- context [Qeq_bool ?v 0] => destruct (Qeq_bool v 0) end.
  all: simpl; rewrite ?app_nil_r; reflexivity.
Qed.

Lemma get_stock_info_trace_head (E : Env) (sym : string) :
  exists rest, trace (get_stock_info E sym) = HistoryCall sym :: rest.
Proof.
  destruct (get_stock_info_cases E sym) as [-> _].
  unfold stock_info_body. rewrite trace_bindM. eexists. reflexivity.
Qed.

Lemma stats_comprehension_trace (E : Env) (tickers : list string)
    (st : gmap string StockInfo) :
  trace (stats_comprehension E tickers st) =
  flat_map (fun s => trace (get_stock_info E s)) tickers.
Proof.
  revert st; induction tickers as [|s rest IH]; intros st; [reflexivity|].
  simpl. rewrite trace_bindM, get_stock_info_total. cbv beta. now rewrite IH.
Qed.

Lemma search_news_trace (E : Env) (query : string) (max_results : Z) :
  trace (search_news E query max_results) = [NewsCall query max_results].
Proof.
  unfold search_news. rewrite trace_try_except, trace_bindM.
  unfold call, trace at 1, outcome; simpl.
  destruct (ddgs_news E query max_results); reflexivity.
Qed.

Lemma insights_gather_trace (E : Env) (req : Request) :
  let tickers := default ["BTC-USD"; "^IXIC"] (req_tickers req) in
  trace (insights_gather E req) =
  flat_map (fun s => trace (get_stock_info E s)) tickers ++
  [NewsCall (String.concat " " tickers) 5].
Proof.
  intros tickers. unfold insights_gather. fold tickers.
  rewrite trace_bindM, stats_comprehension_trace.
  destruct (stats_comprehension_lookup E tickers ∅) as (m & Hm & _). rewrite Hm.
  cbv beta. rewrite trace_bindM, search_news_trace.
  destruct (search_news_total E (String.concat " " tickers) 5) as [items Hi].
  rewrite Hi. reflexivity.
Qed.

Lemma elapsed_app (E : Env) (l1 l2 : list Call) :
  elapsed E (l1 ++ l2) == elapsed E l1 + elapsed E l2.
Proof. unfold elapsed. rewrite map_app, !py_sum_qsum. apply qsum_app. Qed.

Lemma elapsed_flat_map (E : Env) (f : string -> list Call) (l : list string) :
  elapsed E (flat_map f l) == qsum (map (fun s => elapsed E (f s)) l).
Proof.
  induction l as [|s l IH]; [reflexivity|].
  simpl. rewrite elapsed_app, IH. reflexivity.
Qed.

Lemma trade_insights_trace (E : Env) (req : Request) (msgs : Messages) :
  outcome (insights_gather E req) = Ok msgs ->
  trace (trade_insights E req) = trace (insights_gather E req) ++ [SynthCall msgs].
Proof.
  intros Hg. unfold trade_insights. rewrite trace_bindM, Hg. cbv beta.
  rewrite trace_try_catch, trace_bindM, outcome_bindM.
  change (trace (call (SynthCall ?x) ?r)) with [SynthCall x].
  change (outcome (call (SynthCall ?x) ?r)) with r.
  destruct (together E msgs); [reflexivity|]. cbv beta.
  destruct (stats_json_ok (msg_stats msgs)); reflexivity.
Qed.

(** C2 (as amended). Neither endpoint validates its input.
    [/portfolio-analytics] fetches every holding of the map, whatever the
    sign of its quantity (each fetch starts with a yfinance history call
    for its symbol), and always answers with analytics whose
    [total_value] is the sum of [price * qty] over the priced holdings,
    negative quantities included.  [/trade-insights] with an empty ticker
    list makes no market-data call, but still calls the news search (on
    the empty topic) and the completion API, and always answers, with an
    empty [stats] map: the model's text, or the 500 error response. *)
Theorem endpoints_do_not_validate_input (E : Env) :
  (forall (q : option string) (t : option (list string)) (h : list (string * Q)),
     trace (portfolio_analytics E (mkRequest q t (Some h))) =
       flat_map (fun sq => trace (get_stock_info E (fst sq))) h /\
     (exists pa, outcome (portfolio_analytics E (mkRequest q t (Some h))) = Ok pa /\
        total_value pa ==
          qsum (map spec_value (List.filter (fun iq => prices_nonzero (fst iq))
                                            (holding_infos E h))))) /\
  (forall sym : string, exists rest, trace (get_stock_info E sym) = HistoryCall sym :: rest) /\
  (forall (q : option string) (h : option (list (string * Q))),
     exists msgs,
       trace (trade_insights E (mkRequest q (Some []) h)) = [NewsCall "" 5; SynthCall msgs] /\
       msg_stats msgs = ∅ /\
       outcome (trade_insights E (mkRequest q (Some []) h)) =
         match together E msgs with
         | Ok r => Ok (InsightsOk r ∅)
         | Err e => Ok (InsightsError 500 ("Error: " ++ exn_message e) ∅)
         end).
Proof.
  split; [|split].
  - intros q t h. unfold portfolio_analytics; cbn [req_holdings default].
    split; [apply gpa_trace|].
    destruct (pa_loop_inv E h acc_init) as (acc & Hl & Ht & _).
    cbv zeta in Ht. simpl in Ht.
    destruct (gpa_outcome E h acc Hl) as (ar & av & _ & _ & Hg).
    eexists; split; [exact Hg|]. simpl. rewrite Ht. ring.
  - apply get_stock_info_trace_head.
  - intros q h. set (req := mkRequest q (Some []) h).
    destruct (insights_gather_ok E req) as (msgs & Hg).
    assert (Hs : msg_stats msgs = ∅).
    { apply map_eq. intros k. rewrite lookup_empty.
      apply (insights_gather_stats E req msgs Hg k). intros []. }
    exists msgs. split; [|split; [exact Hs|]].
    + rewrite (trade_insights_trace E req msgs Hg), insights_gather_trace. reflexivity.
    + rewrite (trade_insights_outcome E req msgs Hg), Hs.
      assert (He : stats_json_ok ∅ = true).
      { rewrite (stats_json_ok_lookup ∅ [] (run_stock_info E)); [reflexivity|].
        intros k. split; [intros [] | intros _; apply lookup_empty]. }
      rewrite He. destruct (together E msgs); reflexivity.
Qed.

(** C2 (as stated) fails: the holding [{"AAPL": -1}] is fetched from
    yfinance and priced (total value -12), and an empty ticker list still
    reaches the news search and the completion API. *)
Lemma endpoints_invalid_input_counterexample :
  trace (portfolio_analytics demo_env (mkRequest None None (Some [("AAPL", -1)]))) =
    [HistoryCall "AAPL"; InfoCall "AAPL"] /\
  (exists pa, outcome (portfolio_analytics demo_env
                         (mkRequest None None (Some [("AAPL", -1)]))) = Ok pa /\
              total_value pa == -12) /\
  (exists msgs, trace (trade_insights demo_env (mkRequest None (Some []) None)) =
                  [NewsCall "" 5; SynthCall msgs]) /\
  outcome (trade_insights demo_env (mkRequest None (Some []) None)) = Ok (InsightsOk "Hold." ∅).
Proof.
  split; [reflexivity|]. split; [eexists; split; [reflexivity | vm_compute; reflexivity]|].
  split; [eexists; reflexivity | reflexivity].
Qed.

(** C5 (as amended). [trade_insights] gathers its data sequentially: the
    upstream calls are those of [get_stock_info] for each ticker in order,
    then the news search; the time spent gathering is the sum of their
    latencies, not the largest one.  A ticker whose fetch fails gets the
    symbol-only [StockInfo] in [stats], the others their full [StockInfo]. *)
Theorem insights_gather_sequential (E : Env) (req : Request) :
  let tickers := default ["BTC-USD"; "^IXIC"] (req_tickers req) in
  trace (insights_gather E req) =
    flat_map (fun s => trace (get_stock_info E s)) tickers ++
    [NewsCall (String.concat " " tickers) 5] /\
  elapsed E (trace (insights_gather E req)) ==
    qsum (map (fun s => elapsed E (trace (get_stock_info E s))) tickers) +
    latency E (NewsCall (String.concat " " tickers) 5) /\
  exists msgs, outcome (insights_gather E req) = Ok msgs /\
    forall k, In k tickers ->
      msg_stats msgs !! k =
        Some (match outcome (stock_info_body E k) with
              | Ok si => si
              | Err _ => symbol_only k
              end).
Proof.
  intros tickers. pose proof (insights_gather_trace E req) as Ht.
  fold tickers in Ht. split; [exact Ht|]. split.
  2:{ destruct (insights_gather_ok E req) as (msgs & Hg).
      exists msgs. split; [exact Hg|]. intros k Hk.
      rewrite (proj1 (insights_gather_stats E req msgs Hg k) Hk).
      unfold run_stock_info. destruct (get_stock_info_cases E k) as [_ ->].
      reflexivity. }
  rewrite Ht, elapsed_app, elapsed_flat_map.
  unfold elapsed at 2, py_sum; simpl. ring.
Qed.

(** C5 (as stated) fails: over five tickers where the history call of
    "T1" times out after 10 time units (the others taking 1), the request
    returns a symbol-only [StockInfo] for "T1" but spends 19 units
    gathering data, not at most one timeout period. *)
Lemma insights_gather_timeout_counterexample :
  run_stock_info demo_env "T1" = symbol_only "T1" /\
  latency demo_env (HistoryCall "T1") == 10 /\
  elapsed demo_env (trace (insights_gather demo_env demo_five_request)) == 19 /\
  ~ elapsed demo_env (trace (insights_gather demo_env demo_five_request)) <= 10.
Proof.
  split; [reflexivity|]. split; [reflexivity|].
  split; [vm_compute; reflexivity|].
  vm_compute. intros H. apply H. reflexivity.
Qed.

(* ------------------------------------------------------------------ *)
(** ** Further properties of the market-data gateway *)

Lemma trace_bind_nil {A B} (m : M A) (f : A -> M B) :
  trace m = [] -> (forall a, trace (f a) = []) -> trace (bindM m f) = [].
Proof.
  intros Hm Hf. rewrite trace_bindM, Hm. simpl.
  destruct (outcome m); [apply Hf | reflexivity].
Qed.

Lemma trace_opt_when {A} (c : bool) (r : Result A) : trace (opt_when c r) = [].
Proof. destruct c; [destruct r|]; reflexivity. Qed.

(** [get_stock_info] always reports the requested symbol in [symbol]. *)
Theorem get_stock_info_symbol (E : Env) (sym : string) :
  symbol (run_stock_info E sym) = Some sym.
Proof.
  unfold run_stock_info. destruct (get_stock_info_cases E sym) as [_ ->].
  destruct (outcome (stock_info_body E sym)) as [si|e] eqn:Hb; [|reflexivity].
  destruct (stock_info_body_ok E sym si Hb) as (_ & _ & Hs & _). exact Hs.
Qed.

(** [get_stock_info] makes the yfinance history call, then, only if it
    succeeded, the [info] call; nothing else leaves the process. *)
Theorem get_stock_info_upstream_calls (E : Env) (sym : string) :
  trace (get_stock_info E sym) =
  HistoryCall sym :: match yf_history E sym with
                     | Ok _ => [InfoCall sym]
                     | Err _ => []
                     end.
Proof.
  destruct (get_stock_info_cases E sym) as [-> _].
  unfold stock_info_body. rewrite trace_bindM.
  change (trace (call (HistoryCall sym) (yf_history E sym))) with [HistoryCall sym].
  change (outcome (call (HistoryCall sym) (yf_history E sym))) with (yf_history E sym).
  change ([HistoryCall sym] ++ ?X) with (HistoryCall sym :: X). f_equal.
  destruct (yf_history E sym) as [hist|e]; [|reflexivity]. cbv beta.
  rewrite trace_bindM.
  change (trace (call (InfoCall sym) (yf_info E sym))) with [InfoCall sym].
  change (outcome (call (InfoCall sym) (yf_info E sym))) with (yf_info E sym).
  destruct (yf_info E sym) as [info|e]; [|reflexivity].
  change ([InfoCall sym] ++ ?X) with (InfoCall sym :: X). f_equal. cbv beta.
  repeat (apply trace_bind_nil; [first [apply trace_opt_when | reflexivity] | intros ?]).
  match goal with |- context [if ?b then _ else _] => destruct b end; reflexivity.
Qed.

(** When [get_stock_info] succeeds, the quote fields come from [ticker.info];
    [price_month_ago] is the close of the oldest bar of the history,
    [price_week_ago] the close five bars before the latest (absent with at
    most five bars), [volume] the latest bar's volume and [avg_volume] the
    mean volume (absent for an empty history). *)
Theorem stock_info_body_fields (E : Env) (sym : string) (hist : list Bar) (info : Info)
    (si : StockInfo) :
  yf_history E sym = Ok hist -> yf_info E sym = Ok info ->
  outcome (stock_info_body E sym) = Ok si ->
  name si = shortName info /\ price si = regularMarketPrice info /\
  previous_close si = regularMarketPreviousClose info /\
  currency si = info_currency info /\
  price_month_ago si = hd_error (map Close hist) /\
  price_week_ago si = (if (length hist <=? 5)%nat then None
                       else nth_error (rev (map Close hist)) 5) /\
  volume si = hd_error (rev (map Volume hist)) /\
  match avg_volume si with
  | Some a => a == qsum (map Volume hist) / inject_Z (Z.of_nat (length hist))
  | None => hist = []
  end.
Proof.
  intros Hh Hi H. unfold stock_info_body in H. peel H.
  match type of H with
  | outcome (if ?b then _ else _) = _ => destruct b
  end; [injection H as <- | discriminate].
  unfold call, outcome in Hv, Hv0; simpl in Hv, Hv0.
  rewrite Hh in Hv. injection Hv as <-. rewrite Hi in Hv0. injection Hv0 as <-.
  cbn [name price previous_close currency price_month_ago price_week_ago
       volume avg_volume].
  rewrite !length_map.
  repeat split.
  - destruct hist; reflexivity.
  - rewrite nth_error_rev, length_map.
    destruct (Nat.leb_spec (length hist) 5), (Nat.ltb_spec 5 (length hist)); try lia;
      reflexivity.
  - change (hd_error ?l) with (nth_error l 0). rewrite nth_error_rev, length_map.
    destruct hist as [|b hist]; [reflexivity|]. simpl length.
    replace (S (length hist) - S 0)%nat with (length hist) by lia. reflexivity.
  - destruct (Nat.ltb_spec 0 (length hist)) as [Hn|Hn].
    + unfold series_mean, py_len. rewrite py_sum_qsum, length_map. apply Qeq_refl.
    + destruct hist; [reflexivity | simpl in Hn; lia].
Qed.

Lemma stock_info_body_fields_witness :
  let hist := [bar 10; bar 11; bar 12] in
  let info := mkInfo (Some "AAPL") (Some 12) (Some 11) (Some "USD") in
  let si := run_stock_info demo_env "AAPL" in
  yf_history demo_env "AAPL" = Ok hist /\ yf_info demo_env "AAPL" = Ok info /\
  outcome (stock_info_body demo_env "AAPL") = Ok si /\
  (name si = shortName info /\ price si = regularMarketPrice info /\
   previous_close si = regularMarketPreviousClose info /\
   currency si = info_currency info /\
   price_month_ago si = hd_error (map Close hist) /\
   price_week_ago si = (if (length hist <=? 5)%nat then None
                        else nth_error (rev (map Close hist)) 5) /\
   volume si = hd_error (rev (map Volume hist)) /\
   match avg_volume si with
   | Some a => a == qsum (map Volume hist) / inject_Z (Z.of_nat (length hist))
   | None => hist = []
   end).
Proof.
  intros hist info si.
  split; [reflexivity|]. split; [reflexivity|]. split; [reflexivity|].
  apply (stock_info_body_fields demo_env "AAPL" hist info si); reflexivity.
Defined.

(* ------------------------------------------------------------------ *)
(** ** Further properties of the news search *)


Lemma news_items_missing (E : Env) (k : nat) (rs : list RawNews) (r : RawNews) :
  In r rs -> ~ keys_present r -> exists e, news_items E k rs = Err e.
Proof.
  revert k; induction rs as [|r0 rs IH]; intros k Hin Hm; [destruct Hin|].
  simpl. destruct Hin as [->|Hin].
  - unfold news_item.
    destruct (r_title r) eqn:Et, (r_url r) eqn:Eu, (r_body r) eqn:Eb;
      try (eexists; reflexivity).
    exfalso. apply Hm. unfold keys_present. rewrite Et, Eu, Eb. repeat split; discriminate.
  - destruct (news_item E k r0); [|eexists; reflexivity].
    destruct (IH (S k) Hin Hm) as [e ->]. eexists; reflexivity.
Qed.



(** The news search is all or nothing: if one result lacks the key
    ["title"], ["url"] or ["body"], [search_news] returns no item at all,
    not the complete ones. *)
Theorem search_news_missing_key (E : Env) (query : string) (max_results : Z)
    (rs : list RawNews) (r : RawNews) :
  ddgs_news E query max_results = Ok rs -> In r rs -> ~ keys_present r ->
  outcome (search_news E query max_results) = Ok [].
Proof.
  intros Hd Hin Hm. destruct (news_items_missing E 0 rs r Hin Hm) as [e He].
  unfold search_news. rewrite outcome_try_except, outcome_bindM.
  unfold call, outcome at 2; simpl. rewrite Hd. unfold lift, outcome; simpl.
  rewrite He. reflexivity.
Qed.

Lemma search_news_missing_key_witness :
  let rs := [mkRawNews (Some "AAPL") (Some "https://example.com") (Some "body");
             mkRawNews (Some "AAPL") (Some "https://example.com/2") None] in
  ddgs_news demo_env_partial_news "AAPL" 5 = Ok rs /\
  In (mkRawNews (Some "AAPL") (Some "https://example.com/2") None) rs /\
  ~ keys_present (mkRawNews (Some "AAPL") (Some "https://example.com/2") None) /\
  outcome (search_news demo_env_partial_news "AAPL" 5) = Ok [].
Proof.
  intros rs.
  assert (Hd : ddgs_news demo_env_partial_news "AAPL" 5 = Ok rs) by reflexivity.
  assert (Hin : In (mkRawNews (Some "AAPL") (Some "https://example.com/2") None) rs)
    by (right; left; reflexivity).
  assert (Hm : ~ keys_present (mkRawNews (Some "AAPL") (Some "https://example.com/2") None))
    by (intros (_ & _ & Hb); apply Hb; reflexivity).
  split; [exact Hd|]. split; [exact Hin|]. split; [exact Hm|].
  exact (search_news_missing_key demo_env_partial_news "AAPL" 5 rs _ Hd Hin Hm).
Defined.

(* ------------------------------------------------------------------ *)
(** ** Further properties of the insights endpoint *)


(** When the completion API answers, [/trade-insights] returns its text
    with the [stats] map that [get_stock_info] gives for each requested
    ticker, and nothing for any other key. *)
Theorem trade_insights_success (E : Env) (req : Request) (msgs : Messages) (r : string) :
  outcome (insights_gather E req) = Ok msgs ->
  together E msgs = Ok r ->
  let tickers := default ["BTC-USD"; "^IXIC"] (req_tickers req) in
  exists stats,
    outcome (trade_insights E req) = Ok (InsightsOk r stats) /\
    forall k, (In k tickers -> stats !! k = Some (run_stock_info E k)) /\
              (~ In k tickers -> stats !! k = None).
Proof.
  intros Hg Ht tickers. exists (msg_stats msgs). split.
  - rewrite (trade_insights_outcome E req msgs Hg), Ht. reflexivity.
  - apply (insights_gather_stats E req msgs Hg).
Qed.

Lemma trade_insights_success_witness :
  exists msgs,
  outcome (insights_gather demo_env demo_ok_request) = Ok msgs /\
  together demo_env msgs = Ok "Hold." /\
  let tickers := default ["BTC-USD"; "^IXIC"] (req_tickers demo_ok_request) in
  exists stats,
    outcome (trade_insights demo_env demo_ok_request) = Ok (InsightsOk "Hold." stats) /\
    forall k, (In k tickers -> stats !! k = Some (run_stock_info demo_env k)) /\
              (~ In k tickers -> stats !! k = None).
Proof.
  eexists.
  assert (Hg : outcome (insights_gather demo_env demo_ok_request) =
               Ok (match outcome (insights_gather demo_env demo_ok_request) with
                   | Ok m => m | Err _ => mkMessages "" "" [] ∅ [] [] end))
    by reflexivity.
  split; [exact Hg|].
  assert (Ht : together demo_env (match outcome (insights_gather demo_env demo_ok_request) with
                   | Ok m => m | Err _ => mkMessages "" "" [] ∅ [] [] end) = Ok "Hold.")
    by reflexivity.
  split; [exact Ht|].
  exact (trade_insights_success demo_env demo_ok_request _ "Hold." Hg Ht).
Defined.

(* ------------------------------------------------------------------ *)
(** ** Further properties of the portfolio analytics engine *)

Lemma pa_loop_step (E : Env) (sym : string) (qty : Q) (rest : list (string * Q))
    (acc : Acc) :
  outcome (pa_loop E ((sym, qty) :: rest) acc) =
  match pa_update acc qty (run_stock_info E sym) with
  | Ok a => outcome (pa_loop E rest a)
  | Err e => Err e
  end.
Proof.
  change (pa_loop E ((sym, qty) :: rest) acc) with
    (let! info := get_stock_info E sym in
     let! acc' := lift (pa_update acc qty info) in pa_loop E rest acc').
  rewrite outcome_bindM, get_stock_info_total. cbv beta.
  rewrite outcome_bindM. reflexivity.
Qed.

(** The loop over holdings whose quantities may differ, but not their
    symbols, collects the same returns and volatilities; its total value
    scales with the quantities when they are all scaled alike. *)
Lemma pa_loop_quantities (E : Env) (h1 h2 : list (string * Q)) (acc1 acc2 : Acc) :
  map fst h1 = map fst h2 ->
  acc_returns acc1 = acc_returns acc2 -> acc_vols acc1 = acc_vols acc2 ->
  exists a1 a2, outcome (pa_loop E h1 acc1) = Ok a1 /\ outcome (pa_loop E h2 acc2) = Ok a2 /\
    acc_returns a1 = acc_returns a2 /\ acc_vols a1 = acc_vols a2.
Proof.
  revert h2 acc1 acc2.
  induction h1 as [|[s1 q1] r1 IH]; intros [|[s2 q2] r2] acc1 acc2 Hf Hr Hv;
    try discriminate.
  - exists acc1, acc2. repeat split; auto.
  - injection Hf as <- Hf. rewrite !pa_loop_step.
    destruct (pa_update_cases acc1 q1 (run_stock_info E s1)) as [Hno1 Hyes1].
    destruct (pa_update_cases acc2 q2 (run_stock_info E s1)) as [Hno2 Hyes2].
    destruct (prices_nonzero (run_stock_info E s1)) eqn:Hn.
    + destruct (Hyes1 eq_refl) as [ps1 ->]. destruct (Hyes2 eq_refl) as [ps2 ->].
      apply IH; [exact Hf | |]; simpl; congruence.
    + rewrite (Hno1 eq_refl), (Hno2 eq_refl). apply IH; assumption.
Qed.

Lemma flat_map_fst {B} (f : string -> list B) (h1 h2 : list (string * Q)) :
  map fst h1 = map fst h2 ->
  flat_map (fun sq => f (fst sq)) h1 = flat_map (fun sq => f (fst sq)) h2.
Proof.
  revert h2; induction h1 as [|sq1 r1 IH]; intros [|sq2 r2] H; try discriminate;
    [reflexivity|].
  injection H as H1 H2. simpl. rewrite H1, (IH r2 H2). reflexivity.
Qed.

(** Only the symbols of the holdings matter to everything but the total
    value: two holdings maps over the same symbols, in the same order,
    make the same upstream calls and get the same returns, volatility,
    Sharpe ratio, drawdown and risk level, whatever their quantities
    (negative ones included). *)
Theorem get_portfolio_analytics_quantities (E : Env) (h1 h2 : list (string * Q)) :
  map fst h1 = map fst h2 ->
  trace (get_portfolio_analytics E h1) = trace (get_portfolio_analytics E h2) /\
  exists pa1 pa2,
    outcome (get_portfolio_analytics E h1) = Ok pa1 /\
    outcome (get_portfolio_analytics E h2) = Ok pa2 /\
    returns pa1 = returns pa2 /\ pa_volatility pa1 = pa_volatility pa2 /\
    sharpe pa1 = sharpe pa2 /\ drawdown pa1 = drawdown pa2 /\
    risk_level pa1 = risk_level pa2.
Proof.
  intros Hf. split.
  - rewrite !gpa_trace. apply (flat_map_fst (fun s => trace (get_stock_info E s))), Hf.
  - destruct (pa_loop_quantities E h1 h2 acc_init acc_init Hf eq_refl eq_refl)
      as (a1 & a2 & H1 & H2 & Hr & Hv).
    destruct (gpa_outcome E h1 a1 H1) as (ar1 & av1 & -> & -> & G1).
    destruct (gpa_outcome E h2 a2 H2) as (ar2 & av2 & -> & -> & G2).
    rewrite Hr, Hv in G1. do 2 eexists. split; [exact G1|]. split; [exact G2|].
    repeat split.
Qed.

Lemma get_portfolio_analytics_quantities_witness :
  map fst [("AAPL", 10); ("MSFT", 5)] = map fst [("AAPL", -3); ("MSFT", 0)] /\
  trace (get_portfolio_analytics demo_env [("AAPL", 10); ("MSFT", 5)]) =
    trace (get_portfolio_analytics demo_env [("AAPL", -3); ("MSFT", 0)]) /\
  exists pa1 pa2,
    outcome (get_portfolio_analytics demo_env [("AAPL", 10); ("MSFT", 5)]) = Ok pa1 /\
    outcome (get_portfolio_analytics demo_env [("AAPL", -3); ("MSFT", 0)]) = Ok pa2 /\
    returns pa1 = returns pa2 /\ pa_volatility pa1 = pa_volatility pa2 /\
    sharpe pa1 = sharpe pa2 /\ drawdown pa1 = drawdown pa2 /\
    risk_level pa1 = risk_level pa2.
Proof.
  assert (Hf : map fst [("AAPL", 10); ("MSFT", 5)] = map fst [("AAPL", -3); ("MSFT", 0)])
    by reflexivity.
  split; [exact Hf|].
  exact (get_portfolio_analytics_quantities demo_env _ _ Hf).
Defined.

(** A portfolio none of whose holdings resolves to a non-zero price and a
    non-zero month-ago price (unknown symbols, failed fetches, zero
    quotes) is reported as worth 0 with every statistic 0 and a Low risk
    level; the endpoint does not signal that nothing was priced. *)
Theorem get_portfolio_analytics_nothing_priced (E : Env) (h : list (string * Q)) :
  Forall (fun sq => prices_nonzero (run_stock_info E (fst sq)) = false) h ->
  outcome (get_portfolio_analytics E h) = Ok (mkPortfolioAnalytics 0 0 0 0 0 "Low").
Proof.
  intros Hall.
  assert (Hl : forall acc, outcome (pa_loop E h acc) = Ok acc).
  { induction Hall as [|[s q] rest Hn _ IH]; intros acc; [reflexivity|].
    rewrite pa_loop_step. simpl in Hn.
    destruct (pa_update_cases acc q (run_stock_info E s)) as [Hno _].
    rewrite (Hno Hn). apply IH. }
  destruct (gpa_outcome E h acc_init (Hl acc_init)) as (ar & av & -> & -> & G).
  rewrite G. reflexivity.
Qed.

Lemma get_portfolio_analytics_nothing_priced_witness :
  Forall (fun sq => prices_nonzero (run_stock_info demo_env (fst sq)) = false)
    [("ZERO", 3); ("T1", 2)] /\
  outcome (get_portfolio_analytics demo_env [("ZERO", 3); ("T1", 2)]) =
    Ok (mkPortfolioAnalytics 0 0 0 0 0 "Low").
Proof.
  assert (Hall : Forall (fun sq => prices_nonzero (run_stock_info demo_env (fst sq)) = false)
                   [("ZERO", 3); ("T1", 2)])
    by (repeat constructor).
  split; [exact Hall|].
  exact (get_portfolio_analytics_nothing_priced demo_env _ Hall).
Defined.

(* ------------------------------------------------------------------ *)
(** ** The other endpoints *)

Lemma sentiment_history_nth (E : Env) (news_topic : string) (i : nat) :
  nth_error (sentiment_history E news_topic) i =
  if (i <? 10)%nat
  then Some (mkSentimentPoint (now_day E - Z.of_nat i)%Z (nth (i mod 3) sentiments ""))
  else None.
Proof. do 10 (destruct i as [|i]; [reflexivity|]). simpl. destruct i; reflexivity. Qed.

(** [/sentiment-history] does not read its topic: for any topic it lists
    ten points, one per day from today back to nine days ago, each with one
    of the three sentiments, repeating with period three. *)
Theorem sentiment_history_shape (E : Env) (t1 t2 : string) :
  sentiment_history E t1 = sentiment_history E t2 /\
  length (sentiment_history E t1) = 10%nat /\
  forall i p, nth_error (sentiment_history E t1) i = Some p ->
    sp_date p = (now_day E - Z.of_nat i)%Z /\ In (sp_sentiment p) sentiments /\
    forall p', nth_error (sentiment_history E t1) (i + 3) = Some p' ->
      sp_sentiment p' = sp_sentiment p.
Proof.
  split; [reflexivity|]. split; [reflexivity|].
  intros i p H. rewrite sentiment_history_nth in H.
  destruct (i <? 10)%nat; [injection H as <-|discriminate]. cbn [sp_date sp_sentiment].
  split; [reflexivity|]. split.
  - assert (H3 : (i mod 3 < length sentiments)%nat)
      by (apply Nat.mod_upper_bound; discriminate).
    exact (nth_In sentiments "" H3).
  - intros p' H'. rewrite sentiment_history_nth in H'.
    destruct (i + 3 <? 10)%nat; [injection H' as <-|discriminate]. cbn [sp_sentiment].
    assert (Hmod : ((i + 3) mod 3 = i mod 3)%nat)
      by (replace (i + 3)%nat with (i + 1 * 3)%nat by lia; apply Nat.Div0.mod_add).
    exact (f_equal (fun n => nth n sentiments "") Hmod).
Qed.

(** [/compare-strategies] does not reject a request without strategies: a
    missing ["strategies"] key and an empty list make the same request to
    the completion API, with an empty user message; a single strategy is
    sent verbatim. *)
Theorem compare_strategies_prompt (ask : list ChatMessage -> Result string) :
  compare_strategies ask None = compare_strategies ask (Some []) /\
  fst (compare_strategies ask None) =
    [mkChatMessage "system" compare_system_prompt; mkChatMessage "user" ""] /\
  forall s, fst (compare_strategies ask (Some [s])) =
    [mkChatMessage "system" compare_system_prompt; mkChatMessage "user" s].
Proof. split; [reflexivity|]. split; [reflexivity|]. intros s. reflexivity. Qed.

(** [/backtest] without a strategy asks about the default strategy; its
    answer is the model's text, or status 500 with ["Error: "] and the
    failure's message when the completion API fails. *)
Theorem backtest_response (ask : list ChatMessage -> Result string) (strategy : option string) :
  backtest ask None =
    backtest ask (Some "Backtest a simple moving average crossover on BTC-USD for the last 2 years.") /\
  match snd (backtest ask strategy) with
  | BacktestOk r => ask (fst (backtest ask strategy)) = Ok r
  | BacktestError code msg =>
      code = 500%Z /\
      exists e, ask (fst (backtest ask strategy)) = Err e /\ msg = ("Error: " ++ exn_message e)%string
  end.
Proof.
  split; [reflexivity|]. unfold backtest. simpl.
  destruct (ask _) as [r|e]; [reflexivity|]. split; [reflexivity|]. eauto.
Qed.

(** [/backtest-vs-live] answers with a comparison exactly when both
    ["backtest_data"] and ["live_data"] are present and pass the [str]
    validation of [BacktestComparison], and the completion API answers;
    the two summaries are then the validated fields (a JSON string
    unchanged) and only the discrepancies come from the model. *)
Theorem backtest_vs_live_ok_iff (str_field : JsonValue -> option string)
    (ask : list ChatMessage -> Result string)
    (backtest_data live_data : option JsonValue) (b l d : string) :
  snd (backtest_vs_live str_field ask backtest_data live_data) = ComparisonOk b l d <->
  (exists vb, backtest_data = Some vb /\ str_field vb = Some b) /\
  (exists vl, live_data = Some vl /\ str_field vl = Some l) /\
  ask (fst (backtest_vs_live str_field ask backtest_data live_data)) = Ok d.
Proof.
  unfold backtest_vs_live, validated_field. cbn [fst snd]. split.
  - destruct (ask _) as [r|e]; [|discriminate].
    destruct backtest_data as [vb|], live_data as [vl|];
      try destruct (str_field vb) eqn:Eb; try destruct (str_field vl) eqn:El;
      try discriminate.
    intros H. injection H as -> -> ->.
    split; [eauto|]. split; [eauto | reflexivity].
  - intros ((vb & -> & Hb) & (vl & -> & Hl) & Ha). rewrite Ha, Hb, Hl. reflexivity.
Qed.

(** With ["backtest_data"] or ["live_data"] missing (or [null], or a value
    the [str] validation rejects), [/backtest-vs-live] still sends its two
    messages, the prompt showing the field as Python's [str] prints it
    (["None"] for a missing one), and even when the completion API answers
    it responds with status 500 and a validation error. *)
Theorem backtest_vs_live_missing_field (str_field : JsonValue -> option string)
    (ask : list ChatMessage -> Result string)
    (backtest_data live_data : option JsonValue) (r : string) :
  validated_field str_field backtest_data = None \/
  validated_field str_field live_data = None ->
  ask (fst (backtest_vs_live str_field ask backtest_data live_data)) = Ok r ->
  fst (backtest_vs_live str_field ask backtest_data live_data) =
    [mkChatMessage "system" backtest_vs_live_system_prompt;
     mkChatMessage "user" ("Backtest: " ++ py_str_json backtest_data ++ newline ++
                           "Live: " ++ py_str_json live_data)] /\
  snd (backtest_vs_live str_field ask backtest_data live_data) =
    ComparisonError 500 ("Error: " ++ exn_message ValidationError).
Proof.
  intros Hm Ha. split; [reflexivity|].
  unfold backtest_vs_live in *. cbn [fst snd] in *. rewrite Ha.
  destruct Hm as [-> | ->]; [reflexivity|].
  destruct (validated_field str_field backtest_data); reflexivity.
Qed.

Lemma backtest_vs_live_missing_field_witness :
  (validated_field pydantic_v2_str None = None \/
   validated_field pydantic_v2_str (Some (JStr "win rate 60%")) = None) /\
  ask_ok (fst (backtest_vs_live pydantic_v2_str ask_ok None (Some (JStr "win rate 60%")))) =
    Ok "Looks fine." /\
  fst (backtest_vs_live pydantic_v2_str ask_ok None (Some (JStr "win rate 60%"))) =
    [mkChatMessage "system" backtest_vs_live_system_prompt;
     mkChatMessage "user" ("Backtest: " ++ py_str_json None ++ newline ++
                           "Live: " ++ py_str_json (Some (JStr "win rate 60%")))] /\
  snd (backtest_vs_live pydantic_v2_str ask_ok None (Some (JStr "win rate 60%"))) =
    ComparisonError 500 ("Error: " ++ exn_message ValidationError).
Proof.
  assert (Hm : validated_field pydantic_v2_str None = None \/
               validated_field pydantic_v2_str (Some (JStr "win rate 60%")) = None)
    by (left; reflexivity).
  assert (Ha : ask_ok (fst (backtest_vs_live pydantic_v2_str ask_ok None
                             (Some (JStr "win rate 60%")))) = Ok "Looks fine.")
    by reflexivity.
  split; [exact Hm|]. split; [exact Ha|].
  exact (backtest_vs_live_missing_field pydantic_v2_str ask_ok None
           (Some (JStr "win rate 60%")) _ Hm Ha).
Defined.
